(** * kubernecetes-mcp-server: a shallow embedding of the orchestration core

    The development follows the Python sources module by module:
    [pod_templates], [container_templates], [k8s_manager], [yaml_tools],
    [pod_tools], [job_tools], [cronjob_tools] and [deployment_tools].
    Python values are embedded as a small JSON-like universe, exceptions
    as an error type, and the remote cluster as an oracle that answers
    every request issued through the API facade. *)

From Stdlib Require Import Ascii.
From stdpp Require Import gmap strings list pretty.

Set Default Proof Using "Type".
#[local] Set Warnings "-register-all".

(** ** Python values *)

(** Values that YAML documents, template configurations and tool arguments
    are made of.  Dictionaries have string keys. *)
Inductive pyval :=
  | PNone
  | PBool (b : bool)
  | PInt (n : Z)
  | PStr (s : string)
  | PList (l : list pyval)
  | PDict (d : gmap string pyval).

(** Python truthiness, as tested by [if v:] and [not v]. *)
Definition truthy (v : pyval) : bool :=
  match v with
  | PNone => false
  | PBool b => b
  | PInt n => negb (n =? 0)%Z
  | PStr s => negb (String.eqb s "")
  | PList l => match l with [] => false | _ :: _ => true end
  | PDict d => match map_to_list d with [] => false | _ :: _ => true end
  end.

(** [repr(v)].  String literals are quoted without escaping, which is what
    Python prints for strings free of quotes, backslashes and control
    characters; dictionaries are printed in the map's enumeration order. *)
Fixpoint py_repr (v : pyval) : string :=
  match v with
  | PNone => "None"
  | PBool b => if b then "True" else "False"
  | PInt n => pretty n
  | PStr s => "'" +:+ s +:+ "'"
  | PList l => "[" +:+ String.concat ", " (map py_repr l) +:+ "]"
  | PDict d =>
      "{" +:+ String.concat ", "
                (map_fold (fun k x acc => ("'" +:+ k +:+ "': " +:+ py_repr x) :: acc) [] d)
          +:+ "}"
  end.

(** [str(v)], the conversion an f-string applies to an interpolated value. *)
Definition py_str (v : pyval) : string :=
  match v with
  | PStr s => s
  | _ => py_repr v
  end.

Definition type_name (v : pyval) : string :=
  match v with
  | PNone => "NoneType"
  | PBool _ => "bool"
  | PInt _ => "int"
  | PStr _ => "str"
  | PList _ => "list"
  | PDict _ => "dict"
  end.

(** [v == s] for a string literal [s]. *)
Definition py_eq_str (v : pyval) (s : string) : bool :=
  match v with
  | PStr s' => String.eqb s' s
  | _ => false
  end.

(** ** Exceptions and results *)

Inductive exn :=
  | KeyError (key : string)
  | TypeError (msg : string)
  | AttributeError (msg : string)
  | ValueError (msg : string)
  | RuntimeError (msg : string)
  | ConfigException (text : string)
  | ApiException (status : Z) (text : string)
  | Exception (text : string).

(** [str(e)].  A [KeyError] prints the repr of its key; an [ApiException]
    carries the text the client library renders for it.  [Exception]
    stands for an exception of any class the sources name in no [except]
    clause of their own, such as the [MaxRetryError] of the transport when
    the server cannot be reached. *)
Definition exn_str (e : exn) : string :=
  match e with
  | KeyError k => "'" +:+ k +:+ "'"
  | TypeError m | AttributeError m | ValueError m | RuntimeError m => m
  | ConfigException t => t
  | ApiException _ t => t
  | Exception t => t
  end.

Definition is_ApiException (e : exn) : bool :=
  match e with ApiException _ _ => true | _ => false end.

Inductive result (A : Type) :=
  | Ok (a : A)
  | Raise (e : exn).
Arguments Ok {A} a.
Arguments Raise {A} e.

Definition rbind {A B} (r : result A) (k : A -> result B) : result B :=
  match r with
  | Ok a => k a
  | Raise e => Raise e
  end.

Notation "'let?' x ':=' r 'in' k" := (rbind r (fun x => k))
  (at level 10, x name, r at level 100, k at level 200).

(** A list comprehension whose element expression may raise: elements are
    evaluated left to right and the first exception ends the evaluation. *)
Fixpoint comprehension {A B} (f : A -> result B) (l : list A) : result (list B) :=
  match l with
  | [] => Ok []
  | x :: l' =>
      let? y := f x in
      let? ys := comprehension f l' in
      Ok (y :: ys)
  end.

(** The line feed, ["\n"] in the Python sources. *)
Definition nl : string := String "010"%char EmptyString.

(** [sep.join(l)]. *)
Definition join (sep : string) (l : list string) : string := String.concat sep l.

(** ** Operations on values *)

(** [v[k]] for a string key [k]. *)
Definition py_getitem (v : pyval) (k : string) : result pyval :=
  match v with
  | PDict d =>
      match d !! k with
      | Some x => Ok x
      | None => Raise (KeyError k)
      end
  | PStr _ => Raise (TypeError "string indices must be integers, not 'str'")
  | PList _ => Raise (TypeError "list indices must be integers or slices, not str")
  | _ => Raise (TypeError ("'" +:+ type_name v +:+ "' object is not subscriptable"))
  end.

(** [v[k] = x]. *)
Definition py_setitem (v : pyval) (k : string) (x : pyval) : result pyval :=
  match v with
  | PDict d => Ok (PDict (<[k := x]> d))
  | PList _ => Raise (TypeError "list indices must be integers or slices, not str")
  | _ => Raise (TypeError ("'" +:+ type_name v +:+ "' object does not support item assignment"))
  end.

(** [v.get(k)] and [v.get(k, default)]. *)
Definition py_get (v : pyval) (k : string) (dflt : pyval) : result pyval :=
  match v with
  | PDict d => Ok (default dflt (d !! k))
  | _ => Raise (AttributeError ("'" +:+ type_name v +:+ "' object has no attribute 'get'"))
  end.

(** [for x in v]: the elements a loop or comprehension visits. *)
Definition py_iter (v : pyval) : result (list pyval) :=
  match v with
  | PList l => Ok l
  | PStr s => Ok (map (fun c => PStr (String c EmptyString)) (String.list_ascii_of_string s))
  | PDict d => Ok (map (fun kv => PStr kv.1) (map_to_list d))
  | _ => Raise (TypeError ("'" +:+ type_name v +:+ "' object is not iterable"))
  end.

(** ** The client library boundary *)

(** The objects of the [kubernetes.client] package that the tools build and
    read.  Attribute values are dynamically typed; an object the code only
    prints is represented by the text [str()] renders for it. *)
Module kubernetes.

(** An object the code receives and does not look into: the name of its
    class and the text [str()] renders for it. *)
Record object := {
  class_name : string;
  rendering : string }.

Record V1ContainerPort := {
  container_port : pyval;
  protocol : pyval;
  port_name : pyval }.

Record V1EnvVar := {
  env_name : pyval;
  env_value : pyval;
  value_from : pyval }.

Record V1ResourceRequirements := {
  requests : pyval;
  limits : pyval }.

Record V1Container := {
  container_name : pyval;
  image : pyval;
  ports : list V1ContainerPort;
  env : list V1EnvVar;
  resources : option V1ResourceRequirements;
  command : pyval;
  args : pyval }.

Record V1ObjectMeta := {
  meta_name : pyval;
  meta_namespace : pyval;
  labels : gmap string string }.

Record V1PodSpec := {
  containers : list V1Container;
  restart_policy : pyval }.

Record V1PodStatus := {
  phase : pyval;
  host_ip : pyval;
  pod_ip : pyval }.

Record V1Pod := {
  pod_api_version : string;
  pod_kind : string;
  pod_metadata : V1ObjectMeta;
  pod_spec : V1PodSpec;
  pod_status : option V1PodStatus }.

Record V1PodTemplateSpec := {
  template_metadata : V1ObjectMeta;
  template_spec : V1PodSpec }.

Record V1JobSpec := {
  completions : Z;
  parallelism : Z;
  backoff_limit : Z;
  job_pod_template : V1PodTemplateSpec }.

Record V1Job := {
  job_api_version : string;
  job_kind : string;
  job_metadata : V1ObjectMeta;
  job_spec : V1JobSpec }.

Record V1CronJobSpec := {
  schedule : string;
  job_template : V1JobSpec }.

Record V1CronJob := {
  cronjob_api_version : string;
  cronjob_kind : string;
  cronjob_metadata : V1ObjectMeta;
  cronjob_spec : V1CronJobSpec }.

Record V1DeploymentStrategy := { strategy_type : pyval }.

Record V1DeploymentSpec := {
  replicas : pyval;
  strategy : option V1DeploymentStrategy;
  deployment_template : V1PodTemplateSpec }.

Record V1DeploymentStatus := { available_replicas : pyval }.

Record V1Deployment := {
  deployment_metadata : V1ObjectMeta;
  deployment_spec : V1DeploymentSpec;
  deployment_status : option V1DeploymentStatus;
  deployment_str : string }.

(** Every interaction with the outside world that the modelled code
    performs: configuration discovery and the per-kind operations of the
    four API families. *)
Inductive call :=
  | load_incluster_config
  | load_kube_config
  | read_namespaced_config_map (name namespace : pyval)
  | replace_namespaced_config_map (name namespace body : pyval)
  | create_namespaced_config_map (namespace body : pyval)
  | create_namespaced_pod (namespace : string) (body : V1Pod)
  | create_namespaced_job (namespace : string) (body : V1Job)
  | create_namespaced_cron_job (namespace : string) (body : V1CronJob)
  | delete_namespaced_deployment (name namespace : string)
  | delete_namespaced_service (name namespace : string)
  | delete_namespaced_pod (name namespace : string)
  | delete_namespaced_job (name namespace : string)
  | delete_namespaced_ingress (name namespace : string)
  | delete_namespaced_cron_job (name namespace : string)
  | patch_namespaced_deployment (name namespace : string) (body : pyval)
  | read_namespaced_deployment (name namespace : string).

(** What a successful call hands back. *)
Definition resp_of (c : call) : Type :=
  match c with
  | create_namespaced_pod _ _ => V1Pod
  | patch_namespaced_deployment _ _ _ | read_namespaced_deployment _ _ => V1Deployment
  | _ => object
  end.

(** A call returns, or it is answered with an error status and a message,
    or it fails in some other way: the server cannot be reached, a file
    cannot be read. *)
Inductive answer (R : Type) :=
  | Returned (r : R)
  | Rejected (status : Z) (text : string)
  | Failed (text : string).
Arguments Returned {R} r.
Arguments Rejected {R} status text.
Arguments Failed {R} text.

(** The model classes check their required attributes when an object is
    built: [V1ContainerPort] needs a [container_port] and [V1EnvVar] a
    [name]. *)
Definition new_V1ContainerPort (container_port protocol name : pyval)
    : result V1ContainerPort :=
  match container_port with
  | PNone => Raise (ValueError "Invalid value for `container_port`, must not be `None`")
  | _ => Ok {| container_port := container_port; protocol := protocol; port_name := name |}
  end.

Definition new_V1EnvVar (name value value_from : pyval) : result V1EnvVar :=
  match name with
  | PNone => Raise (ValueError "Invalid value for `name`, must not be `None`")
  | _ => Ok {| env_name := name; env_value := value; value_from := value_from |}
  end.

End kubernetes.
Import kubernetes.

(** ** Process state and the effect monad *)

Inductive event :=
  | Called (c : call)
  | Logged (msg : string).

(** A tracked resource entry, the dictionary
    [{"kind": kind, "name": name, "namespace": namespace}]. *)
Record entry := {
  kind : string;
  name : string;
  namespace : string }.

(** The state a tool invocation runs in: the cluster, given as the answer
    it makes to whatever request comes [n]-th; the chronological record of
    requests and log lines; and the registry of the process-wide manager,
    a dictionary in insertion order. *)
Record state := {
  oracle : nat -> forall c : call, answer (resp_of c);
  trace : list event;
  tracked : list (string * entry) }.

Definition M (A : Type) : Type := state -> result A * state.

Definition ret {A} (a : A) : M A := fun s => (Ok a, s).

Definition raise {A} (e : exn) : M A := fun s => (Raise e, s).

Definition lift {A} (r : result A) : M A := fun s => (r, s).

Definition bind {A B} (m : M A) (k : A -> M B) : M B :=
  fun s =>
    match m s with
    | (Ok a, s') => k a s'
    | (Raise e, s') => (Raise e, s')
    end.

Notation "'let*' x ':=' m 'in' k" := (bind m (fun x => k))
  (at level 10, x name, m at level 100, k at level 200).

(** [try: body / except <class> as e: handler]: [handler e] is [None] for
    the exceptions the clause does not match, which then propagate. *)
Definition try_except {A} (body : M A) (handler : exn -> option (M A)) : M A :=
  fun s =>
    match body s with
    | (Ok a, s') => (Ok a, s')
    | (Raise e, s') =>
        match handler e with
        | Some h => h s'
        | None => (Raise e, s')
        end
    end.

Definition emit (ev : event) : M unit :=
  fun s => (Ok tt, {| oracle := oracle s; trace := trace s ++ [ev]; tracked := tracked s |}).

(** A request to the cluster: it is recorded, and the cluster's answer
    either is the return value, or surfaces as the exception [failure]
    builds from the error status, or as an exception of another class. *)
Definition request (failure : Z -> string -> exn) (c : call) : M (resp_of c) :=
  fun s =>
    let s' := {| oracle := oracle s; trace := trace s ++ [Called c]; tracked := tracked s |} in
    match oracle s (length (trace s)) c with
    | Returned r => (Ok r, s')
    | Rejected status text => (Raise (failure status text), s')
    | Failed text => (Raise (Exception text), s')
    end.

(** An operation of the API facade; an error status surfaces as
    [ApiException]. *)
Definition api (c : call) : M (resp_of c) := request ApiException c.

(** A function of [kubernetes.config]; its own failure is
    [ConfigException]. *)
Definition config (c : call) : M (resp_of c) := request (fun _ text => ConfigException text) c.

(** [await value] on what an operation of the facade has returned.  The
    facade is the synchronous client ([create_pod], [update_deployment] and
    the sweep use its return values as they are), so [value] is a plain
    object of class [class]; it is not awaitable and the expression
    raises. *)
Definition await {A} (class : string) (value : A) : M A :=
  raise (TypeError ("object " +:+ class +:+ " can't be used in 'await' expression")).

Definition calls (tr : list event) : list call :=
  omap (fun ev => match ev with Called c => Some c | Logged _ => None end) tr.

(** [for x in l: body x]. *)
Fixpoint for_each {A} (body : A -> M unit) (l : list A) : M unit :=
  match l with
  | [] => ret tt
  | x :: l' =>
      let* _ := body x in
      for_each body l'
  end.

(** ** Insertion-ordered dictionaries *)

(** The registry is iterated, so the order Python keeps matters: storing
    under a key that is present replaces the value where it stands, and a
    new key goes to the end. *)
Fixpoint dict_set {V} (k : string) (v : V) (d : list (string * V)) : list (string * V) :=
  match d with
  | [] => [(k, v)]
  | (k', v') :: d' =>
      if String.eqb k' k then (k, v) :: d' else (k', v') :: dict_set k v d'
  end.

Fixpoint dict_get {V} (k : string) (d : list (string * V)) : option V :=
  match d with
  | [] => None
  | (k', v') :: d' => if String.eqb k' k then Some v' else dict_get k d'
  end.

Definition dict_values {V} (d : list (string * V)) : list V := map snd d.

Definition dict_keys {V} (d : list (string * V)) : list string := map fst d.

(** ** k8s_manager.py *)

Module k8s_manager.

(** [KubernetesManager.__init__]: in-cluster discovery first, then the
    local credential file, then a fatal error.  The value is the new
    object's [_tracked_resources]. *)
Definition __init__ : M (list (string * entry)) :=
  let* _ :=
    try_except
      (let* _ := config load_incluster_config in ret tt)
      (fun e =>
         match e with
         | ConfigException _ =>
             Some (try_except
                     (let* _ := config load_kube_config in ret tt)
                     (fun e' =>
                        match e' with
                        | ConfigException _ =>
                            Some (raise (RuntimeError "Could not configure kubernetes python client"))
                        | _ => None
                        end))
         | _ => None
         end) in
  ret [].

(** [k8s_manager = KubernetesManager()] in [main]: the object every
    registered tool shares. *)
Definition main_manager : M unit :=
  let* fresh := __init__ in
  fun s => (Ok tt, {| oracle := oracle s; trace := trace s; tracked := fresh |}).

Definition track_resource (kind name namespace : string) : M unit :=
  fun s =>
    let key := namespace +:+ "/" +:+ name in
    (Ok tt,
     {| oracle := oracle s;
        trace := trace s;
        tracked := dict_set key {| kind := kind; name := name; namespace := namespace |}
                     (tracked s) |}).

Definition get_tracked_resources : M (list (string * entry)) :=
  fun s => (Ok (tracked s), s).

Definition clear_tracked_resources : M unit :=
  fun s => (Ok tt, {| oracle := oracle s; trace := trace s; tracked := [] |}).

(** [str(resource)] for an entry dictionary. *)
Definition entry_str (r : entry) : string :=
  "{'kind': '" +:+ kind r +:+ "', 'name': '" +:+ name r
    +:+ "', 'namespace': '" +:+ namespace r +:+ "'}".

(** The [if]/[elif] chain on [resource["kind"]] inside the [try]. *)
Definition delete_resource (resource : entry) : M unit :=
  if String.eqb (kind resource) "Deployment" then
    let* _ := api (delete_namespaced_deployment (name resource) (namespace resource)) in ret tt
  else if String.eqb (kind resource) "Service" then
    let* _ := api (delete_namespaced_service (name resource) (namespace resource)) in ret tt
  else if String.eqb (kind resource) "Pod" then
    let* _ := api (delete_namespaced_pod (name resource) (namespace resource)) in ret tt
  else if String.eqb (kind resource) "Job" then
    let* _ := api (delete_namespaced_job (name resource) (namespace resource)) in ret tt
  else if String.eqb (kind resource) "Ingress" then
    let* _ := api (delete_namespaced_ingress (name resource) (namespace resource)) in ret tt
  else ret tt.

Definition cleanup_entry (resource : entry) : M unit :=
  try_except
    (delete_resource resource)
    (fun e =>
       match e with
       | ApiException _ _ =>
           Some (emit (Logged ("Failed to delete resource " +:+ entry_str resource
                                 +:+ ": " +:+ exn_str e)))
       | _ => None
       end).

Definition cleanup_resources : M unit :=
  let* _ := (fun s => for_each cleanup_entry (dict_values (tracked s)) s) in
  clear_tracked_resources.

End k8s_manager.

(** ** yaml_tools.py *)

Module yaml_tools.

(** [resource["metadata"]["namespace"] = namespace], an update in place of
    the document the loop holds. *)
Definition override_namespace (resource : pyval) (namespace : string) : result pyval :=
  let? metadata := py_getitem resource "metadata" in
  let? metadata' := py_setitem metadata "namespace" (PStr namespace) in
  py_setitem resource "metadata" metadata'.

(** [if namespace: resource["metadata"]["namespace"] = namespace]. *)
Definition scoped (namespace : option string) (resource : pyval) : result pyval :=
  match namespace with
  | Some ns => if truthy (PStr ns) then override_namespace resource ns else Ok resource
  | None => Ok resource
  end.

(** [resource["metadata"][field]]. *)
Definition metadata_field (resource : pyval) (field : string) : result pyval :=
  let? metadata := py_getitem resource "metadata" in
  py_getitem metadata field.

(** The upsert of one ConfigMap document, from the construction of the
    manager to the line appended to [results]. *)
Definition apply_config_map (namespace : option string) (resource : pyval)
    (results : list string) : M (list string) :=
  let* _ := k8s_manager.__init__ in
  let* resource := lift (scoped namespace resource) in
  try_except
    (let* name := lift (metadata_field resource "name") in
     let* ns := lift (metadata_field resource "namespace") in
     let* existing := api (read_namespaced_config_map name ns) in
     let* name := lift (metadata_field resource "name") in
     let* ns := lift (metadata_field resource "namespace") in
     let* response := api (replace_namespaced_config_map name ns resource) in
     let* name := lift (metadata_field resource "name") in
     ret (results ++ ["ConfigMap " +:+ py_str name +:+ " updated successfully"]))
    (fun e =>
       match e with
       | ApiException status _ =>
           Some (if (status =? 404)%Z then
                   let* ns := lift (metadata_field resource "namespace") in
                   let* response := api (create_namespaced_config_map ns resource) in
                   let* name := lift (metadata_field resource "name") in
                   ret (results ++ ["ConfigMap " +:+ py_str name +:+ " created successfully"])
                 else raise e)
       | _ => None
       end).

(** One turn of the loop over the decoded documents. *)
Definition apply_document (namespace : option string) (resource : pyval)
    (results : list string) : M (list string) :=
  if negb (truthy resource) then ret results
  else
    let* kind := lift (py_getitem resource "kind") in
    if py_eq_str kind "ConfigMap" then apply_config_map namespace resource results
    else
      let* kind := lift (py_getitem resource "kind") in
      ret (results ++ ["Unsupported resource kind: " +:+ py_str kind]).

Fixpoint apply_documents (namespace : option string) (resources : list pyval)
    (results : list string) : M (list string) :=
  match resources with
  | [] => ret results
  | resource :: rest =>
      let* results := apply_document namespace resource results in
      apply_documents namespace rest results
  end.

(** [apply_yaml], on the documents [yaml.safe_load_all] decodes from
    [yaml_content]. *)
Definition apply_yaml (resources : list pyval) (namespace : option string)
    (force : bool) : M string :=
  try_except
    (let* results := apply_documents namespace resources [] in
     ret (join nl results))
    (fun e => Some (ret ("Error applying YAML: " +:+ exn_str e))).

End yaml_tools.

(** ** Template catalogs *)

(** A dictionary literal: the items are stored from left to right, so a
    repeated key keeps its last value. *)
Definition dict (items : list (string * pyval)) : gmap string pyval :=
  fold_left (fun d item => <[item.1 := item.2]> d) items ∅.

Definition standard_resources (cpu_request memory_request cpu_limit memory_limit : string) : pyval :=
  PDict (dict [
    ("requests", PDict (dict [("cpu", PStr cpu_request); ("memory", PStr memory_request)]));
    ("limits", PDict (dict [("cpu", PStr cpu_limit); ("memory", PStr memory_limit)]))]).

Definition single_port (number : Z) (port_name : string) : pyval :=
  PList [PDict (dict [
    ("containerPort", PInt number); ("protocol", PStr "TCP"); ("name", PStr port_name)])].

(** *** pod_templates.py *)

Module pod_templates.

Inductive ContainerTemplate := NGINX | REDIS | POSTGRES | MYSQL | CUSTOM.

(** The members in definition order, as iterating the class yields them. *)
Definition members : list ContainerTemplate := [NGINX; REDIS; POSTGRES; MYSQL; CUSTOM].

Definition member_name (t : ContainerTemplate) : string :=
  match t with
  | NGINX => "NGINX" | REDIS => "REDIS" | POSTGRES => "POSTGRES"
  | MYSQL => "MYSQL" | CUSTOM => "CUSTOM"
  end.

Definition member_value (t : ContainerTemplate) : string :=
  match t with
  | NGINX => "NGINX" | REDIS => "REDIS" | POSTGRES => "POSTGRES"
  | MYSQL => "MYSQL" | CUSTOM => "CUSTOM"
  end.

(** [ContainerTemplate(value)]: the member with that value, else
    [ValueError]. *)
Definition lookup_member (value : string) : result ContainerTemplate :=
  match List.find (fun t => String.eqb (member_value t) value) members with
  | Some t => Ok t
  | None => Raise (ValueError ("'" +:+ value +:+ "' is not a valid ContainerTemplate"))
  end.

Definition pod_templates (t : ContainerTemplate) : gmap string pyval :=
  match t with
  | NGINX => dict [
      ("image", PStr "nginx:latest");
      ("ports", single_port 80 "http");
      ("resources", standard_resources "100m" "128Mi" "500m" "512Mi");
      ("restartPolicy", PStr "Always")]
  | REDIS => dict [
      ("image", PStr "redis:latest");
      ("ports", single_port 6379 "redis");
      ("resources", standard_resources "100m" "128Mi" "500m" "512Mi");
      ("restartPolicy", PStr "Always")]
  | POSTGRES => dict [
      ("image", PStr "postgres:latest");
      ("ports", single_port 5432 "postgres");
      ("env", PList [PDict (dict [
         ("name", PStr "POSTGRES_PASSWORD"); ("value", PStr "postgres")])]);
      ("resources", standard_resources "200m" "256Mi" "1000m" "1Gi");
      ("restartPolicy", PStr "Always")]
  | MYSQL => dict [
      ("image", PStr "mysql:latest");
      ("ports", single_port 3306 "mysql");
      ("env", PList [PDict (dict [
         ("name", PStr "MYSQL_ROOT_PASSWORD"); ("value", PStr "mysql")])]);
      ("resources", standard_resources "200m" "256Mi" "1000m" "1Gi");
      ("restartPolicy", PStr "Always")]
  | CUSTOM => dict [
      ("image", PStr "");
      ("ports", PList []);
      ("env", PList []);
      ("resources", standard_resources "100m" "128Mi" "500m" "512Mi");
      ("restartPolicy", PStr "Always")]
  end.

End pod_templates.

(** *** container_templates.py *)

Module container_templates.

Inductive ContainerTemplate := NGINX | NODEJS | PYTHON | CUSTOM.

Definition members : list ContainerTemplate := [NGINX; NODEJS; PYTHON; CUSTOM].

Definition member_name (t : ContainerTemplate) : string :=
  match t with
  | NGINX => "NGINX" | NODEJS => "NODEJS" | PYTHON => "PYTHON" | CUSTOM => "CUSTOM"
  end.

Definition member_value (t : ContainerTemplate) : string :=
  match t with
  | NGINX => "nginx" | NODEJS => "nodejs" | PYTHON => "python" | CUSTOM => "custom"
  end.

Definition lookup_member (value : string) : result ContainerTemplate :=
  match List.find (fun t => String.eqb (member_value t) value) members with
  | Some t => Ok t
  | None => Raise (ValueError ("'" +:+ value +:+ "' is not a valid ContainerTemplate"))
  end.

Definition container_templates (t : ContainerTemplate) : gmap string pyval :=
  match t with
  | NGINX => dict [
      ("image", PStr "nginx:latest");
      ("ports", single_port 80 "http");
      ("resources", standard_resources "100m" "128Mi" "500m" "512Mi")]
  | NODEJS => dict [
      ("image", PStr "node:18");
      ("ports", single_port 3000 "http");
      ("resources", standard_resources "200m" "256Mi" "1000m" "1Gi")]
  | PYTHON => dict [
      ("image", PStr "python:3.9");
      ("ports", single_port 8000 "http");
      ("resources", standard_resources "200m" "256Mi" "1000m" "1Gi")]
  | CUSTOM => dict [
      ("resources", standard_resources "100m" "128Mi" "500m" "512Mi")]
  end.

End container_templates.

(** ** Code the template tools share verbatim *)

(** [if custom_config: {**template_config, **custom_config} else:
    template_config].  Unpacking the overrides last lets each of their keys
    replace the template's. *)
Definition merge_config (template_config : gmap string pyval)
    (custom_config : option (gmap string pyval)) : gmap string pyval :=
  match custom_config with
  | Some custom =>
      if truthy (PDict custom) then custom ∪ template_config else template_config
  | None => template_config
  end.

(** The element of the [container_ports] comprehension. *)
Definition container_port_of (port : pyval) : result V1ContainerPort :=
  let? number := py_getitem port "containerPort" in
  let? proto := py_get port "protocol" (PStr "TCP") in
  let? label := py_get port "name" PNone in
  new_V1ContainerPort number proto label.

(** The element of the [env_vars] comprehension. *)
Definition env_var_of (env : pyval) : result V1EnvVar :=
  let? label := py_getitem env "name" in
  let? value := py_get env "value" PNone in
  let? source := py_get env "valueFrom" PNone in
  new_V1EnvVar label value source.

Definition container_ports_of (config : gmap string pyval) : result (list V1ContainerPort) :=
  let? ports := py_iter (default (PList []) (config !! "ports")) in
  comprehension container_port_of ports.

Definition env_vars_of (config : gmap string pyval) : result (list V1EnvVar) :=
  let? envs := py_iter (default (PList []) (config !! "env")) in
  comprehension env_var_of envs.

(** [V1ResourceRequirements(requests=r.get("requests"), limits=r.get("limits"))]. *)
Definition resource_requirements_of (r : pyval) : result V1ResourceRequirements :=
  let? rq := py_get r "requests" PNone in
  let? lm := py_get r "limits" PNone in
  Ok {| requests := rq; limits := lm |}.

(** [config[key]] on a dictionary. *)
Definition subscript (config : gmap string pyval) (key : string) : result pyval :=
  py_getitem (PDict config) key.

(** The labels every created resource carries,
    [{"mcp-managed": "true", "app": name}]. *)
Definition managed_labels (name : string) : gmap string string :=
  <["app" := name]> (<["mcp-managed" := "true"]> ∅).

(** The label of a pod template, [{"app": name}]. *)
Definition app_label (name : string) : gmap string string :=
  <["app" := name]> ∅.

Definition invalid_template (member_names : list string) : string :=
  "Invalid template. Must be one of: " +:+ join ", " member_names.

(** [obj.attr] where [obj] may be [None]. *)
Definition attr {A B} (obj : option A) (field : A -> B) (field_name : string) : result B :=
  match obj with
  | Some o => Ok (field o)
  | None => Raise (AttributeError ("'NoneType' object has no attribute '" +:+ field_name +:+ "'"))
  end.

(** ** pod_tools.py *)

Module pod_tools.
Import pod_templates.

(** The lines [format_pod_info] appends for one container. *)
Definition container_lines (container : V1Container) : list string :=
  ["  - " +:+ py_str (container_name container);
   "    Image: " +:+ py_str (image container)]
  ++ match ports container with
     | [] => []
     | _ :: _ =>
         "    Ports:"
         :: map (fun port => "      - " +:+ py_str (container_port port) +:+ "/"
                               +:+ py_str (protocol port))
                (ports container)
     end.

Definition format_pod_info (pod : V1Pod) : result string :=
  let status := pod_status pod in
  let spec := pod_spec pod in
  let metadata := pod_metadata pod in
  let? phase_ := attr status phase "phase" in
  let? host_ip_ := attr status host_ip "host_ip" in
  let? pod_ip_ := attr status pod_ip "pod_ip" in
  let info := [
    "Pod: " +:+ py_str (meta_name metadata);
    "Namespace: " +:+ py_str (meta_namespace metadata);
    "Status: " +:+ py_str phase_;
    "Node: " +:+ py_str host_ip_;
    "IP: " +:+ py_str pod_ip_;
    nl +:+ "Containers:"] in
  Ok (join nl (info ++ concat (map container_lines (containers spec)))).

(** The resource block: built only when [pod_config.get("resources")] is
    truthy. *)
Definition resources_of (pod_config : gmap string pyval) : result (option V1ResourceRequirements) :=
  if truthy (default PNone (pod_config !! "resources")) then
    let? r := subscript pod_config "resources" in
    let? built := resource_requirements_of r in
    Ok (Some built)
  else Ok None.

(** From the merged configuration to the [V1Pod] that is submitted. *)
Definition build_pod (name namespace : string) (pod_config : gmap string pyval) : result V1Pod :=
  let? container_ports := container_ports_of pod_config in
  let? env_vars := env_vars_of pod_config in
  let? resources := resources_of pod_config in
  let? image_ := subscript pod_config "image" in
  let container := {|
    container_name := PStr name;
    image := image_;
    ports := container_ports;
    env := env_vars;
    resources := resources;
    command := default PNone (pod_config !! "command");
    args := default PNone (pod_config !! "args") |} in
  Ok {|
    pod_api_version := "v1";
    pod_kind := "Pod";
    pod_metadata := {|
      meta_name := PStr name;
      meta_namespace := PStr namespace;
      labels := managed_labels name |};
    pod_spec := {|
      containers := [container];
      restart_policy := default (PStr "Always") (pod_config !! "restartPolicy") |};
    pod_status := None |}.

Definition create_pod (name namespace template : string)
    (custom_config : option (gmap string pyval)) : M string :=
  match lookup_member template with
  | Raise (ValueError _) => ret (invalid_template (map member_name members))
  | Raise e => raise e
  | Ok template_enum =>
      let template_config := pod_templates template_enum in
      let pod_config := merge_config template_config custom_config in
      let* pod := lift (build_pod name namespace pod_config) in
      try_except
        (let* response := api (create_namespaced_pod namespace pod) in
         let* _ := k8s_manager.track_resource "Pod" name namespace in
         let* info := lift (format_pod_info response) in
         ret ("Pod created successfully:" +:+ nl +:+ info))
        (fun e =>
           match e with
           | ApiException _ _ => Some (ret ("Error creating pod: " +:+ exn_str e))
           | _ => None
           end)
  end.

End pod_tools.

(** ** job_tools.py and cronjob_tools.py *)

(** Both tools build their single container with the same statements; the
    resource block is built whenever the key ["resources"] is present. *)
Definition job_resources_of (container_config : gmap string pyval)
    : result (option V1ResourceRequirements) :=
  match container_config !! "resources" with
  | Some r =>
      let? built := resource_requirements_of r in
      Ok (Some built)
  | None => Ok None
  end.

Definition job_container (name : string) (container_config : gmap string pyval)
    : result V1Container :=
  let? container_ports := container_ports_of container_config in
  let? env_vars := env_vars_of container_config in
  let? resources := job_resources_of container_config in
  let? image_ := subscript container_config "image" in
  Ok {|
    container_name := PStr name;
    image := image_;
    ports := container_ports;
    env := env_vars;
    resources := resources;
    command := default PNone (container_config !! "command");
    args := default PNone (container_config !! "args") |}.

Definition job_spec_of (name : string) (completions parallelism backoff_limit : Z)
    (container : V1Container) : V1JobSpec := {|
  completions := completions;
  parallelism := parallelism;
  backoff_limit := backoff_limit;
  job_pod_template := {|
    template_metadata := {|
      meta_name := PNone; meta_namespace := PNone; labels := app_label name |};
    template_spec := {|
      containers := [container]; restart_policy := PStr "OnFailure" |} |} |}.

Module job_tools.
Import container_templates.

(** From the merged configuration to the [V1Job] that is submitted. *)
Definition build_job (name namespace : string) (completions parallelism backoff_limit : Z)
    (container_config : gmap string pyval) : result V1Job :=
  let? container := job_container name container_config in
  Ok {|
    job_api_version := "batch/v1";
    job_kind := "Job";
    job_metadata := {|
      meta_name := PStr name;
      meta_namespace := PStr namespace;
      labels := managed_labels name |};
    job_spec := job_spec_of name completions parallelism backoff_limit container |}.

(** The call is awaited: once the cluster has accepted the job, [await]
    raises on the object returned, and neither the recording nor the
    [return] that follow it in the source are reached. *)
Definition create_job (name namespace template : string)
    (completions parallelism backoff_limit : Z)
    (custom_config : option (gmap string pyval)) : M string :=
  match lookup_member template with
  | Raise (ValueError _) => ret (invalid_template (map member_name members))
  | Raise e => raise e
  | Ok template_enum =>
      let template_config := container_templates template_enum in
      let container_config := merge_config template_config custom_config in
      let* job :=
        lift (build_job name namespace completions parallelism backoff_limit
                container_config) in
      try_except
        (let* returned := api (create_namespaced_job namespace job) in
         let* response := await (class_name returned) returned in
         let* _ := k8s_manager.track_resource "Job" name namespace in
         ret (rendering response))
        (fun e =>
           match e with
           | ApiException _ _ => Some (ret ("Error creating job: " +:+ exn_str e))
           | _ => None
           end)
  end.

(** [delete_job]. *)
Definition delete_job (job_name namespace : string) (force : bool) : M string :=
  try_except
    (let* returned := api (delete_namespaced_job job_name namespace) in
     let* response := await (class_name returned) returned in
     ret (rendering response))
    (fun e =>
       match e with
       | ApiException _ _ => Some (ret ("Error deleting job: " +:+ exn_str e))
       | _ => None
       end).

End job_tools.

Module cronjob_tools.
Import container_templates.

(** From the merged configuration to the [V1CronJob] that is submitted. *)
Definition build_cronjob (name namespace schedule : string)
    (completions parallelism backoff_limit : Z) (container_config : gmap string pyval)
    : result V1CronJob :=
  let? container := job_container name container_config in
  Ok {|
    cronjob_api_version := "batch/v1";
    cronjob_kind := "CronJob";
    cronjob_metadata := {|
      meta_name := PStr name;
      meta_namespace := PStr namespace;
      labels := managed_labels name |};
    cronjob_spec := {|
      schedule := schedule;
      job_template := job_spec_of name completions parallelism backoff_limit container |} |}.

(** Awaited as in [create_job]. *)
Definition create_cronjob (name namespace schedule template : string)
    (completions parallelism backoff_limit : Z)
    (custom_config : option (gmap string pyval)) : M string :=
  match lookup_member template with
  | Raise (ValueError _) => ret (invalid_template (map member_name members))
  | Raise e => raise e
  | Ok template_enum =>
      let template_config := container_templates template_enum in
      let container_config := merge_config template_config custom_config in
      let* cronjob :=
        lift (build_cronjob name namespace schedule completions parallelism backoff_limit
                container_config) in
      try_except
        (let* returned := api (create_namespaced_cron_job namespace cronjob) in
         let* response := await (class_name returned) returned in
         let* _ := k8s_manager.track_resource "CronJob" name namespace in
         ret (rendering response))
        (fun e =>
           match e with
           | ApiException _ _ => Some (ret ("Error creating cronjob: " +:+ exn_str e))
           | _ => None
           end)
  end.

(** [delete_cronjob]. *)
Definition delete_cronjob (cronjob_name namespace : string) (force : bool) : M string :=
  try_except
    (let* returned := api (delete_namespaced_cron_job cronjob_name namespace) in
     let* response := await (class_name returned) returned in
     ret (rendering response))
    (fun e =>
       match e with
       | ApiException _ _ => Some (ret ("Error deleting cronjob: " +:+ exn_str e))
       | _ => None
       end).

End cronjob_tools.

(** ** deployment_tools.py *)

Module deployment_tools.

Definition container_lines (container : V1Container) : list string :=
  ["  - " +:+ py_str (container_name container);
   "    Image: " +:+ py_str (image container)]
  ++ match ports container with
     | [] => []
     | _ :: _ =>
         "    Ports:"
         :: map (fun port => "      - " +:+ py_str (container_port port) +:+ "/"
                               +:+ py_str (protocol port))
                (ports container)
     end
  ++ match env container with
     | [] => []
     | _ :: _ =>
         "    Environment:"
         :: map (fun env => "      - " +:+ py_str (env_name env) +:+ "="
                              +:+ py_str (env_value env))
                (env container)
     end.

Definition format_deployment_info (deployment : V1Deployment) : result string :=
  let spec := deployment_spec deployment in
  let status := deployment_status deployment in
  let metadata := deployment_metadata deployment in
  let? available := attr status available_replicas "available_replicas" in
  let? strategy_type_ := attr (strategy spec) strategy_type "type" in
  let info := [
    "Deployment: " +:+ py_str (meta_name metadata);
    "Namespace: " +:+ py_str (meta_namespace metadata);
    "Replicas: " +:+ py_str (replicas spec) +:+ " (Desired) / " +:+ py_str available
      +:+ " (Available)";
    "Strategy: " +:+ py_str strategy_type_;
    nl +:+ "Containers:"] in
  Ok (join nl (info ++ concat (map container_lines
                                 (containers (template_spec (deployment_template spec)))))).

Definition valid_actions : list string := ["status"; "history"; "restart"; "undo"].

(** All three calls are awaited, so an accepted request ends in the
    [TypeError] of [await] instead of the [return]. *)
Definition rollout_deployment (deployment_name namespace action : string) : M string :=
  if negb (existsb (String.eqb action) valid_actions) then
    ret ("Invalid action. Must be one of: " +:+ join ", " valid_actions)
  else
    try_except
      (let* response :=
         if String.eqb action "restart" then
           let* returned :=
             api (patch_namespaced_deployment deployment_name namespace
                    (PDict (dict [("spec", PDict (dict [("template", PDict (dict [
                       ("metadata", PDict (dict [("annotations", PDict (dict [
                          ("kubectl.kubernetes.io/restartedAt", PStr "now")]))]))]))]))]))) in
           await "V1Deployment" returned
         else if String.eqb action "undo" then
           let* returned :=
             api (patch_namespaced_deployment deployment_name namespace
                    (PDict (dict [("spec", PDict (dict [("template", PDict (dict [
                       ("metadata", PDict (dict [("annotations", PDict (dict [
                          ("kubectl.kubernetes.io/restartedAt", PStr "now")]))]))]))]))]))) in
           await "V1Deployment" returned
         else
           let* returned := api (read_namespaced_deployment deployment_name namespace) in
           await "V1Deployment" returned in
       ret (deployment_str response))
      (fun e =>
         match e with
         | ApiException _ _ => Some (ret ("Error performing rollout action: " +:+ exn_str e))
         | _ => None
         end).

(** The element of the comprehension under ["env"]. *)
Definition env_item (e : pyval) : result pyval :=
  let? label := py_getitem e "name" in
  let? value := py_getitem e "value" in
  Ok (PDict (dict [("name", label); ("value", value)])).

(** The three [if] statements that fill [patch]; each one assigns
    [patch["spec"]]. *)
Definition build_patch (deployment_name : string) (image : option string)
    (replicas : option Z) (env : option (list pyval)) : result (gmap string pyval) :=
  let patch : gmap string pyval := ∅ in
  let patch :=
    match image with
    | Some image =>
        if truthy (PStr image) then
          <["spec" := PDict (dict [("template", PDict (dict [("spec", PDict (dict [
               ("containers", PList [PDict (dict [
                  ("name", PStr deployment_name); ("image", PStr image)])])]))]))])]> patch
        else patch
    | None => patch
    end in
  let patch :=
    match replicas with
    | Some replicas => <["spec" := PDict (dict [("replicas", PInt replicas)])]> patch
    | None => patch
    end in
  match env with
  | Some env =>
      if truthy (PList env) then
        let? items := comprehension env_item env in
        Ok (<["spec" := PDict (dict [("template", PDict (dict [("spec", PDict (dict [
                ("containers", PList [PDict (dict [
                   ("name", PStr deployment_name); ("env", PList items)])])]))]))])]> patch)
      else Ok patch
  | None => Ok patch
  end.

Definition update_deployment (deployment_name namespace : string) (image : option string)
    (replicas : option Z) (env : option (list pyval)) : M string :=
  try_except
    (let* patch := lift (build_patch deployment_name image replicas env) in
     let* response := api (patch_namespaced_deployment deployment_name namespace (PDict patch)) in
     let* info := lift (format_deployment_info response) in
     ret ("Deployment updated successfully:" +:+ nl +:+ info))
    (fun e =>
       match e with
       | ApiException _ _ => Some (ret ("Error updating deployment: " +:+ exn_str e))
       | _ => None
       end).

End deployment_tools.

(** * Specification-side definitions *)

(** How a tool that uses the return value as it is ends, by the answer to
    its call: [success] when the call returns, the error status rendered
    after [prefix], and any other failure passed through. *)
Definition plain_outcome (success prefix : string) (a : answer object) : result string :=
  match a with
  | Returned _ => Ok success
  | Rejected _ text => Ok (prefix +:+ text)
  | Failed text => Raise (Exception text)
  end.

(** How a tool that awaits its call ends, by the answer to that call: an
    object returned makes [await] raise, an error status is rendered after
    [prefix], and any other failure passes through. *)
Definition awaited_outcome (prefix : string) (a : answer object) : result string :=
  match a with
  | Returned returned =>
      Raise (TypeError ("object " +:+ class_name returned
                          +:+ " can't be used in 'await' expression"))
  | Rejected _ text => Ok (prefix +:+ text)
  | Failed text => Raise (Exception text)
  end.

(** Every request is answered by the server: it returns, or it is
    rejected with an error status. *)
Definition server_answers (o : nat -> forall c : call, answer (resp_of c)) : Prop :=
  forall n c text, o n c <> Failed text.

(** The kinds the sweep has a branch for. *)
Definition swept_kinds : list string := ["Deployment"; "Service"; "Pod"; "Job"; "Ingress"].

Definition swept (e : entry) : bool := existsb (String.eqb (kind e)) swept_kinds.

(** The delete operation that belongs to each kind the sweep knows. *)
Definition delete_call (e : entry) : option call :=
  if String.eqb (kind e) "Deployment" then Some (delete_namespaced_deployment (name e) (namespace e))
  else if String.eqb (kind e) "Service" then Some (delete_namespaced_service (name e) (namespace e))
  else if String.eqb (kind e) "Pod" then Some (delete_namespaced_pod (name e) (namespace e))
  else if String.eqb (kind e) "Job" then Some (delete_namespaced_job (name e) (namespace e))
  else if String.eqb (kind e) "Ingress" then Some (delete_namespaced_ingress (name e) (namespace e))
  else None.

(** The entries a registry holds under a key. *)
Definition entries_under {V} (key : string) (d : list (string * V)) : list (string * V) :=
  List.filter (fun kv => String.eqb kv.1 key) d.

(** A session's creations, replayed on the registry: each item is
    [(kind, name, namespace)]. *)
Definition record_all (history : list (string * string * string)) : M unit :=
  for_each (fun item => k8s_manager.track_resource item.1.1 item.1.2 item.2) history.

(** The body of the patch that restarts a rollout. *)
Definition restart_patch : pyval :=
  PDict (dict [("spec", PDict (dict [("template", PDict (dict [
    ("metadata", PDict (dict [("annotations", PDict (dict [
       ("kubectl.kubernetes.io/restartedAt", PStr "now")]))]))]))]))]).

(** The three values [update_deployment] can put under ["spec"]. *)
Definition image_spec (deployment_name image : string) : pyval :=
  PDict (dict [("template", PDict (dict [("spec", PDict (dict [
    ("containers", PList [PDict (dict [
       ("name", PStr deployment_name); ("image", PStr image)])])]))]))]).

Definition replicas_spec (replicas : Z) : pyval :=
  PDict (dict [("replicas", PInt replicas)]).

Definition env_spec (deployment_name : string) (items : list pyval) : pyval :=
  PDict (dict [("template", PDict (dict [("spec", PDict (dict [
    ("containers", PList [PDict (dict [
       ("name", PStr deployment_name); ("env", PList items)])])]))]))]).

(** The patch as the claim describes it: of the options that take part (an
    image that is not empty, a replica count, a list of environment
    entries that is not empty) the last in the order image, replicas, env
    decides the whole of ["spec"]. *)
Definition patch_of_last_option (deployment_name : string) (image : option string)
    (replicas : option Z) (env : option (list pyval)) : result (gmap string pyval) :=
  match env, replicas, image with
  | Some (e :: l), _, _ =>
      let? items := comprehension deployment_tools.env_item (e :: l) in
      Ok {[ "spec" := env_spec deployment_name items ]}
  | _, Some r, _ => Ok {[ "spec" := replicas_spec r ]}
  | _, None, Some (String c i) => Ok {[ "spec" := image_spec deployment_name (String c i) ]}
  | _, None, _ => Ok ∅
  end.

(** The call that supplies only the option that takes effect. *)
Definition last_supplied (image : option string) (replicas : option Z)
    (env : option (list pyval)) : option string * option Z * option (list pyval) :=
  match env, replicas with
  | Some (_ :: _), _ => (None, None, env)
  | _, Some _ => (None, replicas, None)
  | _, None => (image, None, None)
  end.

(** A configuration from which the container can be built: it carries an
    image, its ports are a list of mappings with a ["containerPort"] other
    than [None], its environment a list of mappings with a ["name"] other
    than [None], and its resources, when present, are a mapping. *)
Definition has_value (key : string) (v : pyval) : bool :=
  match v with
  | PDict d => match d !! key with Some PNone | None => false | Some _ => true end
  | _ => false
  end.

Definition entries_have (key : string) (v : pyval) : bool :=
  match v with
  | PList l => forallb (has_value key) l
  | _ => false
  end.

Definition buildable (config : gmap string pyval) : bool :=
  match config !! "image" with Some _ => true | None => false end
  && entries_have "containerPort" (default (PList []) (config !! "ports"))
  && entries_have "name" (default (PList []) (config !! "env"))
  && match config !! "resources" with
     | None | Some (PDict _) => true
     | Some _ => false
     end.

Definition pod_request_ok (template : string) (custom_config : option (gmap string pyval))
    : bool :=
  match pod_templates.lookup_member template with
  | Ok t => buildable (merge_config (pod_templates.pod_templates t) custom_config)
  | Raise _ => true
  end.

Definition job_request_ok (template : string) (custom_config : option (gmap string pyval))
    : bool :=
  match container_templates.lookup_member template with
  | Ok t => buildable (merge_config (container_templates.container_templates t) custom_config)
  | Raise _ => true
  end.

(** The cluster hands created pods back with their status filled in. *)
Definition pods_served (o : nat -> forall c : call, answer (resp_of c)) : Prop :=
  forall n namespace body pod,
    o n (create_namespaced_pod namespace body) = Returned pod -> is_Some (pod_status pod).

(** ** Clusters used in the examples *)

(** The pod as the server hands it back, with a status block. *)
Definition served (body : V1Pod) : V1Pod := {|
  pod_api_version := pod_api_version body;
  pod_kind := pod_kind body;
  pod_metadata := pod_metadata body;
  pod_spec := pod_spec body;
  pod_status := Some {| phase := PStr "Pending"; host_ip := PNone; pod_ip := PNone |} |}.

Definition sample_deployment (name namespace : string) : V1Deployment := {|
  deployment_metadata := {|
    meta_name := PStr name; meta_namespace := PStr namespace; labels := managed_labels name |};
  deployment_spec := {|
    replicas := PInt 1;
    strategy := Some {| strategy_type := PStr "RollingUpdate" |};
    deployment_template := {|
      template_metadata := {|
        meta_name := PNone; meta_namespace := PNone; labels := app_label name |};
      template_spec := {| containers := []; restart_policy := PStr "Always" |} |} |};
  deployment_status := Some {| available_replicas := PInt 1 |};
  deployment_str := "V1Deployment(" +:+ namespace +:+ "/" +:+ name +:+ ")" |}.

(** An object of the class [class]. *)
Definition an (class : string) : object := {| class_name := class; rendering := "{}" |}.

Definition succeed (c : call) : answer (resp_of c) :=
  match c return answer (resp_of c) with
  | create_namespaced_pod _ body => Returned (served body)
  | patch_namespaced_deployment n ns _ => Returned (sample_deployment n ns)
  | read_namespaced_deployment n ns => Returned (sample_deployment n ns)
  | load_incluster_config | load_kube_config => Returned (an "NoneType")
  | read_namespaced_config_map _ _ | replace_namespaced_config_map _ _ _
  | create_namespaced_config_map _ _ => Returned (an "V1ConfigMap")
  | create_namespaced_job _ _ => Returned (an "V1Job")
  | create_namespaced_cron_job _ _ => Returned (an "V1CronJob")
  | delete_namespaced_pod _ _ => Returned (an "V1Pod")
  | delete_namespaced_service _ _ => Returned (an "V1Service")
  | delete_namespaced_deployment _ _ | delete_namespaced_job _ _
  | delete_namespaced_ingress _ _ | delete_namespaced_cron_job _ _ => Returned (an "V1Status")
  end.

(** A cluster that rejects the calls [reject] selects and accepts the rest. *)
Definition cluster (reject : call -> option (Z * string)) (n : nat) (c : call)
    : answer (resp_of c) :=
  match reject c with
  | Some (status, text) => Rejected status text
  | None => succeed c
  end.

(** The process before any tool has run. *)
Definition boot (o : nat -> forall c : call, answer (resp_of c)) : state :=
  {| oracle := o; trace := []; tracked := [] |}.

Definition accepting : nat -> forall c : call, answer (resp_of c) :=
  cluster (fun _ => None).

(** No ConfigMap exists yet: every read of one is answered 404. *)
Definition empty_cluster : nat -> forall c : call, answer (resp_of c) :=
  cluster (fun c =>
             match c with
             | read_namespaced_config_map _ _ => Some (404%Z, "(404) Reason: Not Found")
             | _ => None
             end).

(** Reads of ConfigMaps are refused by the server. *)
Definition forbidding_reads : nat -> forall c : call, answer (resp_of c) :=
  cluster (fun c =>
             match c with
             | read_namespaced_config_map _ _ => Some (403%Z, "(403) Reason: Forbidden")
             | _ => None
             end).

(** Pods cannot be deleted. *)
Definition keeping_pods : nat -> forall c : call, answer (resp_of c) :=
  cluster (fun c =>
             match c with
             | delete_namespaced_pod _ _ => Some (409%Z, "(409) Reason: Conflict")
             | _ => None
             end).

(** The server cannot be reached when a pod is to be deleted. *)
Definition losing_pods (n : nat) (c : call) : answer (resp_of c) :=
  match c return answer (resp_of c) with
  | delete_namespaced_pod _ _ => Failed "Max retries exceeded"
  | c' => succeed c'
  end.

(** Jobs are refused by the server. *)
Definition refusing_jobs : nat -> forall c : call, answer (resp_of c) :=
  cluster (fun c =>
             match c with
             | create_namespaced_job _ _ => Some (403%Z, "(403) Reason: Forbidden")
             | _ => None
             end).

Definition config_map (name namespace : string) : pyval :=
  PDict (dict [
    ("apiVersion", PStr "v1");
    ("kind", PStr "ConfigMap");
    ("metadata", PDict (dict [("name", PStr name); ("namespace", PStr namespace)]))]).

Definition secret (name : string) : pyval :=
  PDict (dict [
    ("apiVersion", PStr "v1");
    ("kind", PStr "Secret");
    ("metadata", PDict (dict [("name", PStr name)]))]).

(** * Further operations *)

(** ** The delete tools *)

(** [delete_pod] of pod_tools.py. *)
Definition delete_pod (pod_name namespace : string) (force : bool) : M string :=
  try_except
    (let* response := api (delete_namespaced_pod pod_name namespace) in
     ret ("Pod " +:+ pod_name +:+ " deleted successfully"))
    (fun e =>
       match e with
       | ApiException _ _ => Some (ret ("Error deleting pod: " +:+ exn_str e))
       | _ => None
       end).

(** [delete_deployment] of deployment_tools.py. *)
Definition delete_deployment (deployment_name namespace : string) (force : bool) : M string :=
  try_except
    (let* response := api (delete_namespaced_deployment deployment_name namespace) in
     ret ("Deployment " +:+ deployment_name +:+ " deleted successfully"))
    (fun e =>
       match e with
       | ApiException _ _ => Some (ret ("Error deleting deployment: " +:+ exn_str e))
       | _ => None
       end).

(** [delete_service] of service_tools.py and [delete_ingress] of
    ingress_tools.py await the call, as [delete_job] and [delete_cronjob]
    do. *)
Definition delete_service (service_name namespace : string) (force : bool) : M string :=
  try_except
    (let* returned := api (delete_namespaced_service service_name namespace) in
     let* response := await (class_name returned) returned in
     ret (rendering response))
    (fun e =>
       match e with
       | ApiException _ _ => Some (ret ("Error deleting service: " +:+ exn_str e))
       | _ => None
       end).

Definition delete_ingress (ingress_name namespace : string) (force : bool) : M string :=
  try_except
    (let* returned := api (delete_namespaced_ingress ingress_name namespace) in
     let* response := await (class_name returned) returned in
     ret (rendering response))
    (fun e =>
       match e with
       | ApiException _ _ => Some (ret ("Error deleting ingress: " +:+ exn_str e))
       | _ => None
       end).

(** ** Process wrappers *)

(** What [create_subprocess_exec] followed by [communicate] hands back:
    the exit status and the two captured streams, each given as the result
    of its [decode()]. *)
Record completed := {
  returncode : Z;
  stdout : result string;
  stderr : result string }.

(** The operating system, as far as the wrappers see it: running an
    argument vector either raises or completes. *)
Definition runner : Type := list string -> result completed.

(** [try: body / except Exception as e: handler e], without state. *)
Definition rtry {A} (body : result A) (handler : exn -> result A) : result A :=
  match body with
  | Ok a => Ok a
  | Raise e => handler e
  end.

(** [create_subprocess_exec( *cmd )] accepts strings only. *)
Definition argv_of (cmd : list pyval) : result (list string) :=
  comprehension
    (fun v =>
       match v with
       | PStr s => Ok s
       | _ => Raise (TypeError ("expected str, bytes or os.PathLike object, not "
                                  +:+ type_name v))
       end)
    cmd.

(** The statements both wrappers share once [cmd] is built. *)
Definition communicate (run : runner) (cmd : list pyval) : result string :=
  let? argv := argv_of cmd in
  let? process := run argv in
  if negb (returncode process =? 0)%Z then
    let? text := stderr process in
    Ok ("Error: " +:+ text)
  else stdout process.

(** [run_kubectl_command] of pod_tools.py (deployment_tools.py holds a
    copy); [args] is whatever the caller passed, [None] by default. *)
Definition run_kubectl_command (run : runner) (command : string) (args : pyval)
    : result string :=
  rtry
    (let cmd := [PStr "kubectl"; PStr command] in
     let? cmd :=
       if truthy args then
         let? items := py_iter args in
         Ok (cmd ++ items)
       else Ok cmd in
     communicate run cmd)
    (fun e => Ok ("Error executing kubectl command: " +:+ exn_str e)).

(** [run_kubectl_command( *args )]: the elements of [args] are bound to
    the two positional parameters; any other number of them is a
    [TypeError] of the call itself. *)
Definition run_kubectl_command_unpacked (run : runner) (args : list string) : result string :=
  match args with
  | [] =>
      Raise (TypeError
               "run_kubectl_command() missing 1 required positional argument: 'command'")
  | [command] => run_kubectl_command run command PNone
  | [command; arg] => run_kubectl_command run command (PStr arg)
  | _ =>
      Raise (TypeError ("run_kubectl_command() takes from 1 to 2 positional arguments but "
                          +:+ pretty (length args) +:+ " were given"))
  end.

(** [",".join(f"{k}={v}" for k, v in labels.items())]. *)
Definition label_str (labels : list (string * string)) : string :=
  join "," (map (fun kv => kv.1 +:+ "=" +:+ kv.2) labels).

(** [exec_pod_command] of pod_tools.py. *)
Definition exec_pod_command (run : runner) (pod_name namespace : string)
    (command : list string) (container : option string) : result string :=
  rtry
    (let cmd := ["kubectl"; "exec"; pod_name; "-n"; namespace] in
     let cmd :=
       match container with
       | Some c => if truthy (PStr c) then cmd ++ ["-c"; c] else cmd
       | None => cmd
       end in
     let cmd := cmd ++ (["--"] ++ command) in
     communicate run (map PStr cmd))
    (fun e => Ok ("Error executing command in pod: " +:+ exn_str e)).

(** [get_pod_metrics] of pod_tools.py. *)
Definition get_pod_metrics (run : runner) (namespace label_selector : option string)
    : result string :=
  let args := ["top"; "pods"] in
  let args :=
    match namespace with
    | Some ns => if truthy (PStr ns) then args ++ ["-n"; ns] else args ++ ["--all-namespaces"]
    | None => args ++ ["--all-namespaces"]
    end in
  let args :=
    match label_selector with
    | Some selector => if truthy (PStr selector) then args ++ ["-l"; selector] else args
    | None => args
    end in
  run_kubectl_command_unpacked run args.

(** [create_namespace] and [delete_namespace] of namespace_tools.py. *)
Definition create_namespace (run : runner) (name : string)
    (labels : option (list (string * string))) : result string :=
  let args := ["create"; "namespace"; name] in
  let args :=
    match labels with
    | Some (item :: items) => args ++ ["--labels"; label_str (item :: items)]
    | _ => args
    end in
  run_kubectl_command_unpacked run args.

Definition delete_namespace (run : runner) (name : string) (force : bool) : result string :=
  let args := ["delete"; "namespace"; name] in
  let args := if force then args ++ ["--force"] else args in
  run_kubectl_command_unpacked run args.

(** [create_statefulset] and [delete_statefulset] of statefulset_tools.py. *)
Definition create_statefulset (run : runner) (name namespace image : string) (replicas : Z)
    (labels : option (list (string * string))) (service_name : option string)
    : result string :=
  let args := ["create"; "statefulset"; name; "-n"; namespace] in
  let args := if truthy (PStr image) then args ++ ["--image"; image] else args in
  let args :=
    if truthy (PInt replicas) then args ++ ["--replicas"; py_str (PInt replicas)] else args in
  let args :=
    match labels with
    | Some (item :: items) => args ++ ["--labels"; label_str (item :: items)]
    | _ => args
    end in
  let args :=
    match service_name with
    | Some service => if truthy (PStr service) then args ++ ["--service-name"; service] else args
    | None => args
    end in
  run_kubectl_command_unpacked run args.

Definition delete_statefulset (run : runner) (statefulset_name namespace : string)
    (force : bool) : result string :=
  let args := ["delete"; "statefulset"; statefulset_name; "-n"; namespace] in
  let args := if force then args ++ ["--force"] else args in
  run_kubectl_command_unpacked run args.

(** [cordon_node] and [drain_node] of cluster_tools.py. *)
Definition cordon_node (run : runner) (node_name : string) : result string :=
  run_kubectl_command run "cordon" (PList [PStr node_name]).

Definition drain_node (run : runner) (node_name : string)
    (force ignore_daemonsets delete_local_data : bool) : result string :=
  let args := ["drain"; node_name] in
  let args := if force then args ++ ["--force"] else args in
  let args := if ignore_daemonsets then args ++ ["--ignore-daemonsets"] else args in
  let args := if delete_local_data then args ++ ["--delete-local-data"] else args in
  run_kubectl_command_unpacked run args.

(** What a wrapper makes of a finished or failed run: the output on exit
    status 0, the error stream after ["Error: "] otherwise, and the text of
    any exception after [prefix]. *)
Definition rendered (prefix : string) (outcome : result completed) : string :=
  let failed (e : exn) := prefix +:+ exn_str e in
  match outcome with
  | Raise e => failed e
  | Ok process =>
      if (returncode process =? 0)%Z then
        match stdout process with Ok text => text | Raise e => failed e end
      else
        match stderr process with Ok text => "Error: " +:+ text | Raise e => failed e end
  end.

(** ** Definitions for the statements below *)

(** The dispatch test of the apply loop, as a predicate on documents. *)
Definition is_config_map (resource : pyval) : bool :=
  match py_getitem resource "kind" with
  | Ok kind => py_eq_str kind "ConfigMap"
  | Raise _ => false
  end.

(** A namespace that can be told apart from the name in a registry key. *)
Fixpoint free_of_slash (s : string) : bool :=
  match s with
  | EmptyString => true
  | String c s' => negb (Ascii.eqb c "/"%char) && free_of_slash s'
  end.

(** A cluster that accepts every delete the sweep issues. *)
Definition deletes_accepted (o : nat -> forall c : call, answer (resp_of c)) : Prop :=
  forall n e c, delete_call e = Some c -> exists r, o n c = Returned r.

(** What holds of every registry the process can reach: no key occurs
    twice, and each entry sits under the key its namespace and name spell. *)
Definition registry_ok (registry : list (string * entry)) : Prop :=
  NoDup (dict_keys registry)
  /\ Forall (fun item => item.1 = namespace item.2 +:+ "/" +:+ name item.2) registry.

(** [s'] is [s] after some more requests and log lines: same cluster, same
    registry, a longer trace. *)
Definition extends (s s' : state) : Prop :=
  oracle s' = oracle s /\ tracked s' = tracked s /\ exists tr, trace s' = trace s ++ tr.

(** A computation that only talks to the cluster. *)
Definition frames {A} (m : M A) : Prop := forall s, extends s (m s).2.

(** A cluster in which a ConfigMap disappears between the read and the
    replace. *)
Definition vanishing : nat -> forall c : call, answer (resp_of c) :=
  cluster (fun c =>
             match c with
             | replace_namespaced_config_map _ _ _ => Some (404%Z, "(404) Reason: Not Found")
             | _ => None
             end).

(** * Properties *)

(** ** The effect monad *)

Lemma bind_ok {A B} (m : M A) (k : A -> M B) s a s' :
  m s = (Ok a, s') -> bind m k s = k a s'.
Proof. intros H. unfold bind. by rewrite H. Qed.

Lemma bind_raise {A B} (m : M A) (k : A -> M B) s e s' :
  m s = (Raise e, s') -> bind m k s = (Raise e, s').
Proof. intros H. unfold bind. by rewrite H. Qed.

Lemma calls_app tr1 tr2 : calls (tr1 ++ tr2) = calls tr1 ++ calls tr2.
Proof. apply omap_app. Qed.

(** ** Insertion-ordered dictionaries *)

Section dictionaries.
Context {V : Type}.
Implicit Types (d : list (string * V)) (k : string) (v : V).

Lemma dict_get_set_eq k v d : dict_get k (dict_set k v d) = Some v.
Proof.
  induction d as [|[k' v'] d IH]; simpl.
  - by rewrite String.eqb_refl.
  - destruct (String.eqb k' k) eqn:E; simpl.
    + by rewrite String.eqb_refl.
    + by rewrite E.
Qed.

Lemma dict_set_set k v1 v2 d : dict_set k v2 (dict_set k v1 d) = dict_set k v2 d.
Proof.
  induction d as [|[k' v'] d IH]; simpl.
  - by rewrite String.eqb_refl.
  - destruct (String.eqb k' k) eqn:E; simpl.
    + by rewrite String.eqb_refl.
    + by rewrite E, IH.
Qed.

Lemma dict_keys_set k v d :
  dict_keys (dict_set k v d) =
    if bool_decide (k ∈ dict_keys d) then dict_keys d else dict_keys d ++ [k].
Proof.
  induction d as [|[k' v'] d IH].
  - case_bool_decide as D; [by apply elem_of_nil in D | done].
  - cbn [dict_set dict_keys map fst].
    destruct (String.eqb k' k) eqn:E.
    + apply String.eqb_eq in E as ->.
      rewrite bool_decide_eq_true_2; [done | left].
    + apply String.eqb_neq in E. cbn [map fst]. fold (dict_keys (dict_set k v d)).
      rewrite IH. fold (dict_keys d).
      destruct (bool_decide (k ∈ dict_keys d)) eqn:D.
      * apply bool_decide_eq_true_1 in D.
        rewrite bool_decide_eq_true_2; [done | by right].
      * apply bool_decide_eq_false_1 in D.
        rewrite bool_decide_eq_false_2; [done|].
        intros [->|?]%elem_of_cons; [congruence | done].
Qed.

Lemma dict_set_NoDup k v d : NoDup (dict_keys d) -> NoDup (dict_keys (dict_set k v d)).
Proof.
  intros H. rewrite dict_keys_set. case_bool_decide as D; [done|].
  apply NoDup_app. split_and!; [done | | apply NoDup_singleton].
  intros x Hx ->%list_elem_of_singleton. done.
Qed.

Lemma entries_under_absent k d : k ∉ dict_keys d -> entries_under k d = [].
Proof.
  induction d as [|[k' v'] d IH]; simpl; [done|].
  intros H. apply not_elem_of_cons in H as [Hne Hd].
  destruct (String.eqb k' k) eqn:E.
  - apply String.eqb_eq in E. congruence.
  - by apply IH.
Qed.

Lemma entries_under_set k v d :
  NoDup (dict_keys d) -> entries_under k (dict_set k v d) = [(k, v)].
Proof.
  induction d as [|[k' v'] d IH]; simpl; intros H.
  - by rewrite String.eqb_refl.
  - apply NoDup_cons in H as [Hk' Hd].
    destruct (String.eqb k' k) eqn:E; simpl.
    + rewrite String.eqb_refl. f_equal.
      apply String.eqb_eq in E as ->. by apply entries_under_absent.
    + rewrite E. by apply IH.
Qed.

End dictionaries.

(** ** The tracked-resource registry *)

Lemma record_all_run history s :
  exists reg,
    record_all history s = (Ok tt, {| oracle := oracle s; trace := trace s; tracked := reg |})
    /\ (NoDup (dict_keys (tracked s)) -> NoDup (dict_keys reg)).
Proof.
  revert s. induction history as [|[[k n] ns] history IH]; intros s.
  - exists (tracked s). split; [by destruct s | done].
  - unfold record_all. cbn [for_each]. erewrite bind_ok; [|reflexivity].
    destruct (IH {| oracle := oracle s; trace := trace s;
                    tracked := dict_set (ns +:+ "/" +:+ n)
                                 {| kind := k; name := n; namespace := ns |} (tracked s) |})
      as (reg & Hrun & Hinv).
    exists reg. split; [exact Hrun|].
    intros H. apply Hinv. cbn. by apply dict_set_NoDup.
Qed.

(** C6 (as amended).  The registry is keyed by the string
    ["namespace/name"] alone.  After any session, recording a resource and
    then recording one with the same namespace and name, of the same or of
    another kind, leaves exactly one entry under that key, carrying the
    later kind, and the registry is what a single recording of the later
    one would have produced. *)
Theorem track_resource_keyed_by_namespace_and_name o history k1 k2 n ns :
  let key := ns +:+ "/" +:+ n in
  let twice :=
    (let* _ := record_all history in
     let* _ := k8s_manager.track_resource k1 n ns in
     k8s_manager.track_resource k2 n ns) in
  let once :=
    (let* _ := record_all history in
     k8s_manager.track_resource k2 n ns) in
  entries_under key (tracked (twice (boot o)).2)
    = [(key, {| kind := k2; name := n; namespace := ns |})]
  /\ dict_get key (tracked (twice (boot o)).2)
     = Some {| kind := k2; name := n; namespace := ns |}
  /\ tracked (twice (boot o)).2 = tracked (once (boot o)).2.
Proof.
  intros key twice once.
  destruct (record_all_run history (boot o)) as (reg & Hrun & Hinv).
  unfold twice, once.
  rewrite !(bind_ok _ _ _ _ _ Hrun). cbn.
  split_and!.
  - rewrite dict_set_set. apply entries_under_set, Hinv. cbn. apply NoDup_nil_2.
  - apply dict_get_set_eq.
  - apply dict_set_set.
Qed.

(** C6, counterexample.  A Deployment and the Service that exposes it
    share namespace and name; recording both leaves a single entry, the
    Service, where the claim has two. *)
Lemma track_resource_kind_collision :
  dict_values
    (tracked ((let* _ := k8s_manager.track_resource "Deployment" "web" "default" in
               k8s_manager.track_resource "Service" "web" "default") (boot accepting)).2)
  = [{| kind := "Service"; name := "web"; namespace := "default" |}].
Proof. reflexivity. Qed.

(** ** The teardown sweep *)

Lemma swept_delete_call e : swept e = true -> exists c, delete_call e = Some c.
Proof.
  unfold swept, swept_kinds, delete_call. cbn [existsb].
  repeat (destruct (String.eqb (kind e) _); [by eexists|]). done.
Qed.

Lemma cluster_answers reject : server_answers (cluster reject).
Proof.
  intros n c text. unfold cluster.
  destruct (reject c) as [[status msg]|]; [done|]. by destruct c.
Qed.

(** One turn of the sweep, when the server answers: the entry's delete
    is issued, a rejection is logged, and the loop goes on. *)
Lemma cleanup_entry_run e s :
  server_answers (oracle s) ->
  exists tr,
    k8s_manager.cleanup_entry e s
      = (Ok tt, {| oracle := oracle s; trace := trace s ++ tr; tracked := tracked s |})
    /\ calls tr = option_list (delete_call e).
Proof.
  intros Hans.
  unfold k8s_manager.cleanup_entry, k8s_manager.delete_resource, delete_call.
  repeat (destruct (String.eqb (kind e) _);
          [ unfold try_except, bind, api, request, emit; cbn beta zeta;
            destruct (oracle s _ _) as [r|status text|text] eqn:Ho; cbn;
            [ eexists [_]; split; reflexivity
            | eexists [_; _]; rewrite <- app_assoc; split; reflexivity
            | by destruct (Hans _ _ _ Ho) ]
          | ]).
  exists []. rewrite app_nil_r. split; [|done]. by destruct s.
Qed.

Lemma for_each_cleanup_run l s :
  server_answers (oracle s) ->
  exists tr,
    for_each k8s_manager.cleanup_entry l s
      = (Ok tt, {| oracle := oracle s; trace := trace s ++ tr; tracked := tracked s |})
    /\ calls tr = omap delete_call l.
Proof.
  intros Hans. revert s Hans. induction l as [|e l IH]; intros s Hans.
  - exists []. rewrite app_nil_r. split; [by destruct s | done].
  - destruct (cleanup_entry_run e s Hans) as (tr1 & Hrun1 & Hcalls1).
    cbn [for_each]. rewrite (bind_ok _ _ _ _ _ Hrun1).
    destruct (IH {| oracle := oracle s; trace := trace s ++ tr1; tracked := tracked s |} Hans)
      as (tr2 & Hrun2 & Hcalls2).
    exists (tr1 ++ tr2). rewrite app_assoc. split; [exact Hrun2|].
    rewrite calls_app, Hcalls1, Hcalls2. cbn [omap list_omap].
    by destruct (delete_call e).
Qed.

Lemma cleanup_resources_run s :
  server_answers (oracle s) ->
  exists tr,
    k8s_manager.cleanup_resources s
      = (Ok tt, {| oracle := oracle s; trace := trace s ++ tr; tracked := [] |})
    /\ calls tr = omap delete_call (dict_values (tracked s)).
Proof.
  intros Hans.
  destruct (for_each_cleanup_run (dict_values (tracked s)) s Hans) as (tr & Hrun & Hcalls).
  exists tr. split; [|exact Hcalls].
  unfold k8s_manager.cleanup_resources, bind. cbn beta. by rewrite Hrun.
Qed.

Lemma omap_swept l :
  forallb swept l = true -> map delete_call l = map Some (omap delete_call l).
Proof.
  induction l as [|e l IH]; [done|]. cbn [forallb]. intros [He Hl]%andb_prop.
  destruct (swept_delete_call e He) as [c Hc].
  cbn [map omap list_omap]. rewrite Hc. cbn. by rewrite IH.
Qed.

(** C4 (as amended).  When every delete is answered by the server, with
    success or with an error status, the sweep runs to its end over a
    registry of the kinds it knows: it issues exactly one delete for each
    tracked entry, in registry order, whether or not earlier deletes were
    rejected; afterwards the registry is empty, so reading it yields
    nothing, and a later sweep issues no request at all. *)
Theorem cleanup_resources_best_effort s :
  server_answers (oracle s) ->
  forallb swept (dict_values (tracked s)) = true ->
  exists s' issued,
    k8s_manager.cleanup_resources s = (Ok tt, s')
    /\ calls (trace s') = calls (trace s) ++ issued
    /\ map delete_call (dict_values (tracked s)) = map Some issued
    /\ k8s_manager.get_tracked_resources s' = (Ok [], s')
    /\ k8s_manager.cleanup_resources s' = (Ok tt, s').
Proof.
  intros Hans Hkinds.
  destruct (cleanup_resources_run s Hans) as (tr & Hrun & Hcalls).
  exists {| oracle := oracle s; trace := trace s ++ tr; tracked := [] |}, (calls tr).
  split_and!.
  - exact Hrun.
  - cbn. by rewrite calls_app.
  - rewrite Hcalls. by apply omap_swept.
  - reflexivity.
  - reflexivity.
Qed.

Lemma cleanup_resources_best_effort_witness :
  let s :=
    {| oracle := keeping_pods; trace := [];
       tracked := [("default/worker",
                    {| kind := "Pod"; name := "worker"; namespace := "default" |});
                   ("default/migrate",
                    {| kind := "Job"; name := "migrate"; namespace := "default" |})] |} in
  exists s' issued,
    k8s_manager.cleanup_resources s = (Ok tt, s')
    /\ calls (trace s') = calls (trace s) ++ issued
    /\ map delete_call (dict_values (tracked s)) = map Some issued
    /\ k8s_manager.get_tracked_resources s' = (Ok [], s')
    /\ k8s_manager.cleanup_resources s' = (Ok tt, s').
Proof.
  apply (cleanup_resources_best_effort
           {| oracle := keeping_pods; trace := [];
              tracked := [("default/worker",
                           {| kind := "Pod"; name := "worker"; namespace := "default" |});
                          ("default/migrate",
                           {| kind := "Job"; name := "migrate"; namespace := "default" |})] |}).
  - apply cluster_answers.
  - reflexivity.
Defined.

(** C4, counterexample.  Two pods are tracked and the server cannot be
    reached for the first delete.  The failure is no [ApiException], so
    the handler lets it pass: the sweep ends with that exception, the
    second entry is never attempted, and the registry still holds both
    entries, where the claim has every entry attempted and the registry
    emptied. *)
Lemma cleanup_resources_stops_when_unreachable :
  let tracked_two :=
    (let* _ := k8s_manager.track_resource "Pod" "worker" "default" in
     k8s_manager.track_resource "Pod" "cache" "default") (boot losing_pods) in
  let run := k8s_manager.cleanup_resources tracked_two.2 in
  run.1 = Raise (Exception "Max retries exceeded")
  /\ calls (trace run.2) = [delete_namespaced_pod "worker" "default"]
  /\ dict_values (tracked run.2)
     = [{| kind := "Pod"; name := "worker"; namespace := "default" |};
        {| kind := "Pod"; name := "cache"; namespace := "default" |}].
Proof. vm_compute. split_and!; reflexivity. Qed.

(** The entries of the five kinds the sweep has a branch for all get their
    delete call. *)
Lemma cleanup_resources_deletes_known_kinds s e c :
  server_answers (oracle s) ->
  e ∈ dict_values (tracked s) ->
  delete_call e = Some c ->
  c ∈ calls (trace (k8s_manager.cleanup_resources s).2).
Proof.
  intros Hans He Hc.
  destruct (cleanup_resources_run s Hans) as (tr & -> & Hcalls).
  cbn. rewrite calls_app, Hcalls. apply elem_of_app. right.
  apply list_elem_of_omap. by exists e.
Qed.

(** Two tracked entries, the first of which the cluster refuses to delete:
    both deletes are issued, the refusal is logged, the registry ends
    empty. *)
Example cleanup_resources_first_delete_rejected :
  let tracked_two :=
    (let* _ := k8s_manager.track_resource "Pod" "worker" "default" in
     k8s_manager.track_resource "Job" "migrate" "default") (boot keeping_pods) in
  let run := k8s_manager.cleanup_resources tracked_two.2 in
  trace run.2
    = [Called (delete_namespaced_pod "worker" "default");
       Logged ("Failed to delete resource "
                 +:+ "{'kind': 'Pod', 'name': 'worker', 'namespace': 'default'}"
                 +:+ ": (409) Reason: Conflict");
       Called (delete_namespaced_job "migrate" "default")]
  /\ tracked run.2 = [].
Proof. vm_compute. split; reflexivity. Qed.


(** ** The apply engine *)

Import yaml_tools.

Lemma apply_documents_abort namespace pre d post results0 s results s1 e s2 :
  apply_documents namespace pre results0 s = (Ok results, s1) ->
  apply_document namespace d results s1 = (Raise e, s2) ->
  apply_documents namespace (pre ++ d :: post) results0 s = (Raise e, s2).
Proof.
  revert results0 s. induction pre as [|d0 pre IH]; intros results0 s Hpre Hd.
  - cbn in Hpre. injection Hpre as -> ->.
    cbn [app apply_documents]. by rewrite (bind_raise _ _ _ _ _ Hd).
  - cbn [app apply_documents] in *. unfold bind in Hpre |- *.
    destruct (apply_document namespace d0 results0 s) as [[r|e0] s0]; [|done].
    by apply IH.
Qed.

Lemma apply_yaml_abort namespace force pre d post s results s1 e s2 :
  apply_documents namespace pre [] s = (Ok results, s1) ->
  apply_document namespace d results s1 = (Raise e, s2) ->
  apply_yaml (pre ++ d :: post) namespace force s
    = (Ok ("Error applying YAML: " +:+ exn_str e), s2).
Proof.
  intros Hpre Hd. unfold apply_yaml, try_except.
  by rewrite (bind_raise _ _ _ _ _ (apply_documents_abort _ _ _ post _ _ _ _ _ _ Hpre Hd)).
Qed.

Lemma kind_present_truthy (m : gmap string pyval) k x :
  m !! k = Some x -> truthy (PDict m) = true.
Proof.
  intros H. cbn. destruct (map_to_list m) eqn:E; [|done].
  apply map_to_list_empty_iff in E. subst. by rewrite lookup_empty in H.
Qed.

Lemma nonempty_truthy (m : gmap string pyval) : m ≠ ∅ -> truthy (PDict m) = true.
Proof.
  intros H. cbn. destruct (map_to_list m) eqn:E; [|done].
  by apply map_to_list_empty_iff in E.
Qed.

Lemma falsy_dict_empty (m : gmap string pyval) : truthy (PDict m) = false -> m = ∅.
Proof.
  cbn. destruct (map_to_list m) eqn:E; [|done].
  intros _. by apply map_to_list_empty_iff.
Qed.

(** A read that the cluster rejects with a status other than 404 ends the
    document with that [ApiException]. *)
Lemma apply_document_read_rejected namespace d results s kind reg sa d' nm nsv status text :
  py_getitem d "kind" = Ok kind ->
  py_eq_str kind "ConfigMap" = true ->
  k8s_manager.__init__ s = (Ok reg, sa) ->
  scoped namespace d = Ok d' ->
  metadata_field d' "name" = Ok nm ->
  metadata_field d' "namespace" = Ok nsv ->
  oracle sa (length (trace sa)) (read_namespaced_config_map nm nsv) = Rejected status text ->
  status ≠ 404%Z ->
  apply_document namespace d results s
    = (Raise (ApiException status text),
       {| oracle := oracle sa;
          trace := trace sa ++ [Called (read_namespaced_config_map nm nsv)];
          tracked := tracked sa |}).
Proof.
  intros Hkind Hcm Hinit Hscoped Hname Hns Hread Hstatus.
  unfold apply_document.
  destruct d as [| | | | |m]; try discriminate Hkind.
  assert (truthy (PDict m) = true) as ->.
  { cbn in Hkind. destruct (m !! "kind") eqn:E; [|done]. by eapply kind_present_truthy. }
  cbn [negb]. unfold lift at 1. unfold bind at 1. rewrite Hkind, Hcm.
  unfold apply_config_map. rewrite (bind_ok _ _ _ _ _ Hinit).
  unfold lift at 1. unfold bind at 1. rewrite Hscoped.
  unfold try_except, bind, lift, api, request. rewrite Hname, Hns, Hread.
  cbn. destruct (status =? 404)%Z eqn:E; [|done].
  by apply Z.eqb_eq in E.
Qed.

(** A replace that the cluster rejects, again with a status other than
    404, does the same after the read has succeeded. *)
Lemma apply_document_replace_rejected namespace d results s kind reg sa d' nm nsv found
    status text :
  py_getitem d "kind" = Ok kind ->
  py_eq_str kind "ConfigMap" = true ->
  k8s_manager.__init__ s = (Ok reg, sa) ->
  scoped namespace d = Ok d' ->
  metadata_field d' "name" = Ok nm ->
  metadata_field d' "namespace" = Ok nsv ->
  oracle sa (length (trace sa)) (read_namespaced_config_map nm nsv) = Returned found ->
  oracle sa (S (length (trace sa))) (replace_namespaced_config_map nm nsv d')
    = Rejected status text ->
  status ≠ 404%Z ->
  apply_document namespace d results s
    = (Raise (ApiException status text),
       {| oracle := oracle sa;
          trace := (trace sa ++ [Called (read_namespaced_config_map nm nsv)])
                     ++ [Called (replace_namespaced_config_map nm nsv d')];
          tracked := tracked sa |}).
Proof.
  intros Hkind Hcm Hinit Hscoped Hname Hns Hread Hreplace Hstatus.
  unfold apply_document.
  destruct d as [| | | | |m]; try discriminate Hkind.
  assert (truthy (PDict m) = true) as ->.
  { cbn in Hkind. destruct (m !! "kind") eqn:E; [|done]. by eapply kind_present_truthy. }
  cbn [negb]. unfold lift at 1. unfold bind at 1. rewrite Hkind, Hcm.
  unfold apply_config_map. rewrite (bind_ok _ _ _ _ _ Hinit).
  unfold lift at 1. unfold bind at 1. rewrite Hscoped.
  unfold try_except, bind, lift, api, request. rewrite Hname, Hns, Hread.
  cbn. rewrite length_app, Nat.add_1_r, Hreplace.
  cbn. destruct (status =? 404)%Z eqn:E; [|done].
  by apply Z.eqb_eq in E.
Qed.

(** When the read reports 404 and the create is rejected, whatever the
    status, the exception leaves the handler. *)
Lemma apply_document_create_rejected namespace d results s kind reg sa d' nm nsv missing
    status text :
  py_getitem d "kind" = Ok kind ->
  py_eq_str kind "ConfigMap" = true ->
  k8s_manager.__init__ s = (Ok reg, sa) ->
  scoped namespace d = Ok d' ->
  metadata_field d' "name" = Ok nm ->
  metadata_field d' "namespace" = Ok nsv ->
  oracle sa (length (trace sa)) (read_namespaced_config_map nm nsv) = Rejected 404 missing ->
  oracle sa (S (length (trace sa))) (create_namespaced_config_map nsv d')
    = Rejected status text ->
  apply_document namespace d results s
    = (Raise (ApiException status text),
       {| oracle := oracle sa;
          trace := (trace sa ++ [Called (read_namespaced_config_map nm nsv)])
                     ++ [Called (create_namespaced_config_map nsv d')];
          tracked := tracked sa |}).
Proof.
  intros Hkind Hcm Hinit Hscoped Hname Hns Hread Hcreate.
  unfold apply_document.
  destruct d as [| | | | |m]; try discriminate Hkind.
  assert (truthy (PDict m) = true) as ->.
  { cbn in Hkind. destruct (m !! "kind") eqn:E; [|done]. by eapply kind_present_truthy. }
  cbn [negb]. unfold lift at 1. unfold bind at 1. rewrite Hkind, Hcm.
  unfold apply_config_map. rewrite (bind_ok _ _ _ _ _ Hinit).
  unfold lift at 1. unfold bind at 1. rewrite Hscoped.
  unfold try_except, bind, lift, api, request. rewrite Hname, Hns, Hread.
  cbn. rewrite length_app, Nat.add_1_r, Hcreate. done.
Qed.

(** A batch of one ConfigMap the cluster does not hold yet and one Secret:
    the first is created, the second is reported as unsupported, and the
    registry gains no entry. *)
Example apply_yaml_create_and_unsupported :
  let run :=
    apply_yaml [config_map "cm1" "default"; secret "s1"] None false (boot empty_cluster) in
  run.1 = Ok ("ConfigMap cm1 created successfully" +:+ nl
                +:+ "Unsupported resource kind: Secret")
  /\ tracked run.2 = [].
Proof. vm_compute. split; reflexivity. Qed.

(** C1 (as amended).  A remote failure that ends one document, that is a
    rejected read or replace with a status other than 404 or a rejected
    create, ends the whole batch: the result is the single line
    ["Error applying YAML: ..."] with the error's text, the lines of the
    documents applied before it are not reported, and the run stops in the
    state the failing document left, so no later document is dispatched. *)
Theorem apply_yaml_remote_failure_aborts_batch namespace force pre d post s results s1
    status text s2 :
  apply_documents namespace pre [] s = (Ok results, s1) ->
  apply_document namespace d results s1 = (Raise (ApiException status text), s2) ->
  apply_yaml (pre ++ d :: post) namespace force s
    = (Ok ("Error applying YAML: " +:+ text), s2).
Proof.
  intros Hpre Hd. exact (apply_yaml_abort _ force _ _ post _ _ _ _ _ Hpre Hd).
Qed.

Lemma apply_yaml_remote_failure_aborts_batch_witness :
  exists s2,
    apply_yaml ([secret "s"] ++ config_map "a" "default" :: [config_map "b" "default"])
      None false (boot forbidding_reads)
    = (Ok ("Error applying YAML: " +:+ "(403) Reason: Forbidden"), s2).
Proof.
  eexists.
  eapply (apply_yaml_remote_failure_aborts_batch None false [secret "s"]
            (config_map "a" "default") [config_map "b" "default"] (boot forbidding_reads)
            ["Unsupported resource kind: Secret"] (boot forbidding_reads) 403).
  - reflexivity.
  - vm_compute. reflexivity.
Defined.

(** C1, counterexample.  The read of the second document is forbidden.
    The claim has the report carry the first document's line, the error,
    and the third document's outcome; the code returns the error alone and
    never issues a request for the third document. *)
Lemma apply_yaml_read_failure_drops_batch :
  let run :=
    apply_yaml [secret "s"; config_map "a" "default"; config_map "b" "default"]
      None false (boot forbidding_reads) in
  run.1 = Ok "Error applying YAML: (403) Reason: Forbidden"
  /\ calls (trace run.2)
     = [load_incluster_config; read_namespaced_config_map (PStr "a") (PStr "default")].
Proof. vm_compute. split; reflexivity. Qed.

(** C2 (as amended).  A document that is a non-empty mapping without a
    ["kind"] key raises [KeyError] at the dispatch test, and that ends the
    batch: the result is ["Error applying YAML: 'kind'"], the lines of
    earlier documents are not reported, and nothing is done for the
    documents after it. *)
Theorem apply_yaml_missing_kind_aborts_batch namespace force pre m post s results s1 :
  apply_documents namespace pre [] s = (Ok results, s1) ->
  m ≠ ∅ ->
  m !! "kind" = None ->
  apply_yaml (pre ++ PDict m :: post) namespace force s
    = (Ok "Error applying YAML: 'kind'", s1).
Proof.
  intros Hpre Hm Hkind.
  apply (apply_yaml_abort _ force _ _ post _ _ _ (KeyError "kind") _ Hpre).
  unfold apply_document. rewrite (nonempty_truthy _ Hm). cbn. by rewrite Hkind.
Qed.

Lemma apply_yaml_missing_kind_aborts_batch_witness :
  apply_yaml ([secret "s"] ++ PDict (dict [("apiVersion", PStr "v1")])
                :: [config_map "b" "default"])
    None false (boot empty_cluster)
  = (Ok "Error applying YAML: 'kind'", boot empty_cluster).
Proof.
  apply (apply_yaml_missing_kind_aborts_batch None false [secret "s"]
           (dict [("apiVersion", PStr "v1")]) [config_map "b" "default"]
           (boot empty_cluster) ["Unsupported resource kind: Secret"]).
  - reflexivity.
  - apply insert_non_empty.
  - reflexivity.
Defined.

(** C2, counterexample.  A mapping without ["kind"] comes first.  The
    claim has it skipped and the ConfigMap after it applied; the code
    answers with an error text and issues no request. *)
Lemma apply_yaml_missing_kind_is_an_error :
  let run :=
    apply_yaml [PDict (dict [("apiVersion", PStr "v1")]); config_map "b" "default"]
      None false (boot empty_cluster) in
  run.1 = Ok "Error applying YAML: 'kind'" /\ trace run.2 = [].
Proof. vm_compute. split; reflexivity. Qed.

(** C8, at the failing input.  The manager is built once at start-up; the
    apply engine then builds another one, discovery included, for each
    ConfigMap document it processes. *)
Theorem apply_yaml_rebuilds_manager :
  let run :=
    (let* _ := k8s_manager.main_manager in
     apply_yaml [config_map "a" "default"; config_map "b" "default"] None false)
      (boot empty_cluster) in
  calls (trace run.2)
  = [load_incluster_config;
     load_incluster_config;
     read_namespaced_config_map (PStr "a") (PStr "default");
     create_namespaced_config_map (PStr "default") (config_map "a" "default");
     load_incluster_config;
     read_namespaced_config_map (PStr "b") (PStr "default");
     create_namespaced_config_map (PStr "default") (config_map "b" "default")].
Proof. vm_compute. reflexivity. Qed.

(** ** Template resolution *)

Lemma merge_config_lookup (base o : gmap string pyval) key :
  merge_config base (Some o) !! key
  = match o !! key with Some v => Some v | None => base !! key end.
Proof.
  unfold merge_config. destruct (truthy (PDict o)) eqn:E.
  - rewrite lookup_union. destruct (o !! key), (base !! key); done.
  - apply falsy_dict_empty in E as ->. by rewrite lookup_empty.
Qed.

Lemma merge_config_absent (base : gmap string pyval) : merge_config base None = base.
Proof. reflexivity. Qed.

Lemma pod_lookup_member_value t :
  pod_templates.lookup_member (pod_templates.member_value t) = Ok t.
Proof. by destruct t. Qed.

Lemma job_lookup_member_value j :
  container_templates.lookup_member (container_templates.member_value j) = Ok j.
Proof. by destruct j. Qed.

(** What [create_pod] sends is the pod built from the merged
    configuration, whatever the cluster answers. *)
Lemma create_pod_sends name namespace template custom_config s t pod :
  pod_templates.lookup_member template = Ok t ->
  pod_tools.build_pod name namespace
    (merge_config (pod_templates.pod_templates t) custom_config) = Ok pod ->
  calls (trace (pod_tools.create_pod name namespace template custom_config s).2)
  = calls (trace s) ++ [create_namespaced_pod namespace pod].
Proof.
  intros Ht Hpod. unfold pod_tools.create_pod. rewrite Ht. cbn zeta.
  unfold lift at 1. unfold bind at 1. rewrite Hpod.
  unfold try_except, bind, api, request, k8s_manager.track_resource, lift. cbn beta zeta.
  destruct (oracle s _ _) as [response|status text|text]; cbn.
  - destruct (pod_tools.format_pod_info response) as [info|[]]; cbn; by rewrite calls_app.
  - by rewrite calls_app.
  - by rewrite calls_app.
Qed.

(** A configuration the pod cannot be built from stops [create_pod]
    before the cluster is involved: the exception of the build is the
    outcome, no request is sent and nothing is recorded. *)
Lemma create_pod_build_failure_is_local name namespace template custom_config s t e :
  pod_templates.lookup_member template = Ok t ->
  pod_tools.build_pod name namespace
    (merge_config (pod_templates.pod_templates t) custom_config) = Raise e ->
  pod_tools.create_pod name namespace template custom_config s = (Raise e, s).
Proof.
  intros Ht Hpod. unfold pod_tools.create_pod. rewrite Ht. cbn zeta.
  unfold lift at 1. unfold bind at 1. by rewrite Hpod.
Qed.

(** The same two facts for [create_job]. *)
Lemma create_job_sends name namespace template completions parallelism backoff_limit
    custom_config s t job :
  container_templates.lookup_member template = Ok t ->
  job_tools.build_job name namespace completions parallelism backoff_limit
    (merge_config (container_templates.container_templates t) custom_config) = Ok job ->
  calls (trace (job_tools.create_job name namespace template completions parallelism
                  backoff_limit custom_config s).2)
  = calls (trace s) ++ [create_namespaced_job namespace job].
Proof.
  intros Ht Hjob. unfold job_tools.create_job. rewrite Ht. cbn zeta.
  unfold lift at 1. unfold bind at 1. rewrite Hjob.
  unfold try_except, bind, api, request, await, raise. cbn beta zeta.
  destruct (oracle s _ _) as [response|status text|text]; cbn; by rewrite calls_app.
Qed.

Lemma create_job_build_failure_is_local name namespace template completions parallelism
    backoff_limit custom_config s t e :
  container_templates.lookup_member template = Ok t ->
  job_tools.build_job name namespace completions parallelism backoff_limit
    (merge_config (container_templates.container_templates t) custom_config) = Raise e ->
  job_tools.create_job name namespace template completions parallelism backoff_limit
    custom_config s = (Raise e, s).
Proof.
  intros Ht Hjob. unfold job_tools.create_job. rewrite Ht. cbn zeta.
  unfold lift at 1. unfold bind at 1. by rewrite Hjob.
Qed.

Lemma create_cronjob_build_failure_is_local name namespace schedule template completions
    parallelism backoff_limit custom_config s t e :
  container_templates.lookup_member template = Ok t ->
  cronjob_tools.build_cronjob name namespace schedule completions parallelism backoff_limit
    (merge_config (container_templates.container_templates t) custom_config) = Raise e ->
  cronjob_tools.create_cronjob name namespace schedule template completions parallelism
    backoff_limit custom_config s = (Raise e, s).
Proof.
  intros Ht Hcronjob. unfold cronjob_tools.create_cronjob. rewrite Ht. cbn zeta.
  unfold lift at 1. unfold bind at 1. by rewrite Hcronjob.
Qed.

(** The image of the one container is the merged configuration's. *)
Lemma build_pod_image name namespace (config : gmap string pyval) pod :
  pod_tools.build_pod name namespace config = Ok pod ->
  map (fun c => Some (image c)) (containers (pod_spec pod)) = [config !! "image"].
Proof.
  unfold pod_tools.build_pod, subscript, py_getitem.
  destruct (container_ports_of config); [|done].
  destruct (env_vars_of config); [|done].
  destruct (pod_tools.resources_of config); [|done].
  destruct (config !! "image"); [|done].
  cbn. by intros [= <-].
Qed.

Lemma build_job_image name namespace completions parallelism backoff_limit
    (config : gmap string pyval) job :
  job_tools.build_job name namespace completions parallelism backoff_limit config = Ok job ->
  map (fun c => Some (image c))
    (containers (template_spec (job_pod_template (job_spec job))))
  = [config !! "image"].
Proof.
  unfold job_tools.build_job, job_container, subscript, py_getitem.
  destruct (container_ports_of config); [|done].
  destruct (env_vars_of config); [|done].
  destruct (job_resources_of config); [|done].
  destruct (config !! "image"); [|done].
  cbn. by intros [= <-].
Qed.

(** C3.  For every member of either template enumeration and every
    overrides mapping, the merged configuration maps each key of the
    overrides to the overrides' value and every other key to the
    template's value, and it is this configuration the resource is built
    from: the pod that [create_pod] submits and the job that [create_job]
    submits are the ones built from it (their container runs the image
    the merged configuration names), and when nothing can be built from it
    the operation ends there, with nothing sent. *)
Theorem merge_config_shallow_replace (t : pod_templates.ContainerTemplate)
    (j : container_templates.ContainerTemplate) (o : gmap string pyval) (key : string)
    name namespace completions parallelism backoff_limit s :
  let inherited (base : gmap string pyval) (k : string) :=
    match o !! k with Some v => Some v | None => base !! k end in
  let pod_config := merge_config (pod_templates.pod_templates t) (Some o) in
  let container_config :=
    merge_config (container_templates.container_templates j) (Some o) in
  let create_pod :=
    pod_tools.create_pod name namespace (pod_templates.member_value t) (Some o) s in
  let create_job :=
    job_tools.create_job name namespace (container_templates.member_value j)
      completions parallelism backoff_limit (Some o) s in
  pod_config !! key = inherited (pod_templates.pod_templates t) key
  /\ container_config !! key = inherited (container_templates.container_templates j) key
  /\ match pod_tools.build_pod name namespace pod_config with
     | Ok pod =>
         calls (trace create_pod.2) = calls (trace s) ++ [create_namespaced_pod namespace pod]
         /\ map (fun c => Some (image c)) (containers (pod_spec pod))
            = [inherited (pod_templates.pod_templates t) "image"]
     | Raise e => create_pod = (Raise e, s)
     end
  /\ match job_tools.build_job name namespace completions parallelism backoff_limit
             container_config with
     | Ok job =>
         calls (trace create_job.2) = calls (trace s) ++ [create_namespaced_job namespace job]
         /\ map (fun c => Some (image c))
              (containers (template_spec (job_pod_template (job_spec job))))
            = [inherited (container_templates.container_templates j) "image"]
     | Raise e => create_job = (Raise e, s)
     end.
Proof.
  intros inherited pod_config container_config create_pod create_job.
  split_and!.
  - apply merge_config_lookup.
  - apply merge_config_lookup.
  - destruct (pod_tools.build_pod name namespace pod_config) as [pod|e] eqn:Hpod.
    + split.
      * by apply (create_pod_sends _ _ _ _ _ t), Hpod; apply pod_lookup_member_value.
      * rewrite (build_pod_image _ _ _ _ Hpod). f_equal. apply merge_config_lookup.
    + by apply (create_pod_build_failure_is_local _ _ _ _ _ t), Hpod;
        apply pod_lookup_member_value.
  - destruct (job_tools.build_job name namespace completions parallelism backoff_limit
                container_config) as [job|e] eqn:Hjob.
    + split.
      * by apply (create_job_sends _ _ _ _ _ _ _ _ j), Hjob; apply job_lookup_member_value.
      * rewrite (build_job_image _ _ _ _ _ _ _ Hjob). f_equal. apply merge_config_lookup.
    + by apply (create_job_build_failure_is_local _ _ _ _ _ _ _ _ j), Hjob;
        apply job_lookup_member_value.
Qed.

(** An override of the image alone: the submitted pod runs the overriding
    image and keeps the template's port. *)
Example create_pod_overrides_image :
  calls (trace (pod_tools.create_pod "cache" "default" "REDIS"
                  (Some (dict [("image", PStr "redis:7")])) (boot accepting)).2)
  = [create_namespaced_pod "default" {|
       pod_api_version := "v1";
       pod_kind := "Pod";
       pod_metadata := {|
         meta_name := PStr "cache";
         meta_namespace := PStr "default";
         labels := managed_labels "cache" |};
       pod_spec := {|
         containers := [{|
           container_name := PStr "cache";
           image := PStr "redis:7";
           ports := [{| container_port := PInt 6379;
                        protocol := PStr "TCP";
                        port_name := PStr "redis" |}];
           env := [];
           resources := Some {|
             requests := PDict (dict [("cpu", PStr "100m"); ("memory", PStr "128Mi")]);
             limits := PDict (dict [("cpu", PStr "500m"); ("memory", PStr "512Mi")]) |};
           command := PNone;
           args := PNone |}];
         restart_policy := PStr "Always" |};
       pod_status := None |}].
Proof. vm_compute. reflexivity. Qed.

(** ** Rollouts and updates *)

Import deployment_tools.

(** C9.  For every deployment name and namespace, and whatever the cluster
    answers, the action ["undo"] behaves as ["restart"] does: the same
    result, the same final state, and the one request it issues is the
    restart patch. *)
Theorem rollout_undo_same_as_restart deployment_name namespace s :
  rollout_deployment deployment_name namespace "undo" s
    = rollout_deployment deployment_name namespace "restart" s
  /\ calls (trace (rollout_deployment deployment_name namespace "undo" s).2)
     = calls (trace s)
         ++ [patch_namespaced_deployment deployment_name namespace restart_patch].
Proof.
  split; [reflexivity|].
  unfold rollout_deployment. cbn [existsb valid_actions negb String.eqb Ascii.eqb Bool.eqb orb].
  unfold try_except, bind, api, request, await, raise. cbn beta zeta.
  fold restart_patch.
  destruct (oracle s _ _); cbn; by rewrite calls_app.
Qed.

Lemma build_patch_last_option deployment_name image replicas env :
  build_patch deployment_name image replicas env
  = patch_of_last_option deployment_name image replicas env.
Proof.
  unfold build_patch, patch_of_last_option.
  destruct env as [[|e l]|], replicas as [r|], image as [[|c i]|]; cbn [truthy negb String.eqb];
    try reflexivity;
    try (destruct (comprehension env_item (e :: l)); cbn [rbind]; [|reflexivity]);
    f_equal; fold (image_spec deployment_name (String c i)); fold (replicas_spec r);
    try fold (env_spec deployment_name a); by rewrite ?insert_insert_eq.
Qed.

Lemma env_item_raises l e :
  comprehension env_item l = Raise e -> is_ApiException e = false.
Proof.
  induction l as [|item l IH]; [done|]. cbn [comprehension].
  unfold env_item at 1. unfold py_getitem.
  destruct item; cbn; try (by intros [= <-]).
  destruct (d !! "name"); cbn; [|by intros [= <-]].
  destruct (d !! "value"); cbn; [|by intros [= <-]].
  destruct (comprehension env_item l); cbn; [done|]. intros [= <-]. by apply IH.
Qed.

Lemma build_patch_raises deployment_name image replicas env e :
  build_patch deployment_name image replicas env = Raise e -> is_ApiException e = false.
Proof.
  rewrite build_patch_last_option. unfold patch_of_last_option.
  destruct env as [[|item l]|], replicas as [r|], image as [[|c i]|]; try done;
    (destruct (comprehension env_item (item :: l)) eqn:E; [done|]);
    cbn [rbind]; intros [= <-]; by apply (env_item_raises (item :: l)).
Qed.

(** The patch that was built is the body of the one request, whatever the
    cluster answers; a patch that cannot be built ends the call before
    anything is sent. *)
Lemma update_deployment_sends deployment_name namespace image replicas env s patch :
  build_patch deployment_name image replicas env = Ok patch ->
  calls (trace (update_deployment deployment_name namespace image replicas env s).2)
  = calls (trace s) ++ [patch_namespaced_deployment deployment_name namespace (PDict patch)].
Proof.
  intros Hpatch. unfold update_deployment, try_except.
  unfold lift at 1. unfold bind at 1. rewrite Hpatch.
  unfold bind, api, request, lift, ret. cbn beta zeta.
  destruct (oracle s _ _) as [response|status text|text]; cbn.
  - destruct (format_deployment_info response) as [info|[]]; cbn; by rewrite calls_app.
  - by rewrite calls_app.
  - by rewrite calls_app.
Qed.

Lemma update_deployment_not_built deployment_name namespace image replicas env s e :
  build_patch deployment_name image replicas env = Raise e ->
  update_deployment deployment_name namespace image replicas env s = (Raise e, s).
Proof.
  intros Hpatch. pose proof (build_patch_raises _ _ _ _ _ Hpatch) as Hnot.
  unfold update_deployment, try_except. unfold lift at 1. unfold bind at 1.
  rewrite Hpatch. by destruct e.
Qed.

(** C10 (as amended).  An option takes part when it is supplied with a
    value that counts: an image that is not empty, a replica count, a list
    of environment entries that is not empty.  The patch
    [update_deployment] sends is the one the last such option alone
    determines, in the order image, replicas, env: each of them assigns
    the whole of ["spec"], so a call with several options sends what the
    call that keeps only the last of them sends, and behaves as that call
    does. *)
Theorem update_deployment_last_option_wins deployment_name namespace image replicas env s :
  let run := update_deployment deployment_name namespace image replicas env s in
  build_patch deployment_name image replicas env
    = patch_of_last_option deployment_name image replicas env
  /\ match patch_of_last_option deployment_name image replicas env with
     | Ok patch =>
         calls (trace run.2)
         = calls (trace s)
             ++ [patch_namespaced_deployment deployment_name namespace (PDict patch)]
     | Raise e => run = (Raise e, s)
     end
  /\ run = update_deployment deployment_name namespace
             (last_supplied image replicas env).1.1
             (last_supplied image replicas env).1.2
             (last_supplied image replicas env).2 s.
Proof.
  intros run. split_and!.
  - apply build_patch_last_option.
  - pose proof (build_patch_last_option deployment_name image replicas env) as Hbuilt.
    destruct (patch_of_last_option deployment_name image replicas env) as [patch|e].
    + by apply update_deployment_sends.
    + by apply update_deployment_not_built.
  - unfold run, update_deployment. rewrite !build_patch_last_option.
    by destruct env as [[|e l]|], replicas as [r|], image as [[|c i]|].
Qed.

(** C10, counterexample.  An image is supplied, and after it an empty
    list of environment entries.  The claim has the later option replace
    the earlier one, so that the patch carries the environment alone; the
    code sends the image change, the empty list counting for nothing. *)
Lemma update_deployment_empty_env_keeps_image :
  let sent :=
    calls (trace (update_deployment "web" "default" (Some "nginx:1.27") None (Some [])
                    (boot accepting)).2) in
  sent = [patch_namespaced_deployment "web" "default"
            (PDict {[ "spec" := image_spec "web" "nginx:1.27" ]})]
  /\ sent <> [patch_namespaced_deployment "web" "default"
                (PDict {[ "spec" := env_spec "web" [] ]})].
Proof.
  split; [vm_compute; reflexivity|].
  intros H.
  apply (f_equal (map (fun c => match c with
                                | patch_namespaced_deployment _ _ body => py_repr body
                                | _ => ""
                                end))) in H.
  vm_compute in H. discriminate H.
Qed.

(** Image and env supplied together: the patch carries the env change
    only. *)
Example update_deployment_drops_image :
  build_patch "web" (Some "nginx:1.27") None
    (Some [PDict (dict [("name", PStr "MODE"); ("value", PStr "debug")])])
  = Ok {[ "spec" := env_spec "web" [PDict (dict [("name", PStr "MODE");
                                                 ("value", PStr "debug")])] ]}.
Proof. vm_compute. reflexivity. Qed.

(** ** Creation from a template *)

Lemma container_ports_buildable (config : gmap string pyval) :
  entries_have "containerPort" (default (PList []) (config !! "ports")) = true ->
  exists built, container_ports_of config = Ok built.
Proof.
  unfold container_ports_of. destruct (default (PList []) (config !! "ports")); try done.
  cbn [entries_have py_iter rbind]. intros H.
  induction l as [|port l IH]; [by eexists|].
  cbn [forallb] in H. apply andb_prop in H as [Hport Hl].
  destruct (IH Hl) as [built Hbuilt].
  destruct port; try done. cbn in Hport.
  destruct (d !! "containerPort") as [number|] eqn:E; [|done].
  cbn [comprehension]. unfold container_port_of at 1. cbn. rewrite E. cbn.
  rewrite Hbuilt. destruct number; try done; by eexists.
Qed.

Lemma env_vars_buildable (config : gmap string pyval) :
  entries_have "name" (default (PList []) (config !! "env")) = true ->
  exists built, env_vars_of config = Ok built.
Proof.
  unfold env_vars_of. destruct (default (PList []) (config !! "env")); try done.
  cbn [entries_have py_iter rbind]. intros H.
  induction l as [|item l IH]; [by eexists|].
  cbn [forallb] in H. apply andb_prop in H as [Hitem Hl].
  destruct (IH Hl) as [built Hbuilt].
  destruct item; try done. cbn in Hitem.
  destruct (d !! "name") as [label|] eqn:E; [|done].
  cbn [comprehension]. unfold env_var_of at 1. cbn. rewrite E. cbn.
  rewrite Hbuilt. destruct label; try done; by eexists.
Qed.

Lemma buildable_job_container name (config : gmap string pyval) :
  buildable config = true -> exists container, job_container name config = Ok container.
Proof.
  unfold buildable. intros H.
  apply andb_prop in H as [H Hres]. apply andb_prop in H as [H Henv].
  apply andb_prop in H as [Himage Hports].
  destruct (container_ports_buildable _ Hports) as [ports Hp].
  destruct (env_vars_buildable _ Henv) as [envs He].
  unfold job_container, job_resources_of, subscript. rewrite Hp, He. cbn.
  destruct (config !! "image"); [|done].
  destruct (config !! "resources") as [[]|]; try done; cbn; by eexists.
Qed.

Lemma buildable_build_job name namespace completions parallelism backoff_limit
    (config : gmap string pyval) :
  buildable config = true ->
  exists job,
    job_tools.build_job name namespace completions parallelism backoff_limit config = Ok job.
Proof.
  intros H. destruct (buildable_job_container name config H) as [container Hc].
  unfold job_tools.build_job. rewrite Hc. by eexists.
Qed.

Lemma buildable_build_pod name namespace (config : gmap string pyval) :
  buildable config = true -> exists pod, pod_tools.build_pod name namespace config = Ok pod.
Proof.
  unfold buildable. intros H.
  apply andb_prop in H as [H Hres]. apply andb_prop in H as [H Henv].
  apply andb_prop in H as [Himage Hports].
  destruct (container_ports_buildable _ Hports) as [ports Hp].
  destruct (env_vars_buildable _ Henv) as [envs He].
  unfold pod_tools.build_pod, pod_tools.resources_of, subscript, py_getitem.
  rewrite Hp, He. cbn [rbind].
  destruct (config !! "image"); [|done].
  destruct (config !! "resources") as [[| | | | |d]|]; try done; cbn [default].
  - cbn. destruct (map_to_list d); cbn; eexists; reflexivity.
  - cbn. eexists; reflexivity.
Qed.

Lemma pod_lookup_member_raises template e :
  pod_templates.lookup_member template = Raise e -> exists msg, e = ValueError msg.
Proof.
  unfold pod_templates.lookup_member. destruct (List.find _ _); [done|].
  intros [= <-]. by eexists.
Qed.

Lemma job_lookup_member_raises template e :
  container_templates.lookup_member template = Raise e -> exists msg, e = ValueError msg.
Proof.
  unfold container_templates.lookup_member. destruct (List.find _ _); [done|].
  intros [= <-]. by eexists.
Qed.

(** The three ways the create call of [create_pod] can end. *)
Lemma create_pod_accepted name namespace template custom_config s t pod response info :
  pod_templates.lookup_member template = Ok t ->
  pod_tools.build_pod name namespace
    (merge_config (pod_templates.pod_templates t) custom_config) = Ok pod ->
  oracle s (length (trace s)) (create_namespaced_pod namespace pod) = Returned response ->
  pod_tools.format_pod_info response = Ok info ->
  pod_tools.create_pod name namespace template custom_config s
  = (Ok ("Pod created successfully:" +:+ nl +:+ info),
     {| oracle := oracle s;
        trace := trace s ++ [Called (create_namespaced_pod namespace pod)];
        tracked := dict_set (namespace +:+ "/" +:+ name)
                     {| kind := "Pod"; name := name; namespace := namespace |}
                     (tracked s) |}).
Proof.
  intros Ht Hpod Hanswer Hinfo. unfold pod_tools.create_pod. rewrite Ht. cbn zeta.
  unfold lift at 1. unfold bind at 1. rewrite Hpod.
  unfold try_except, bind, api, request, k8s_manager.track_resource, lift. cbn beta zeta.
  by rewrite Hanswer, Hinfo.
Qed.

(** A rejected create call is reported in the result text. *)
Lemma create_pod_remote_error name namespace template custom_config s t pod status text :
  pod_templates.lookup_member template = Ok t ->
  pod_tools.build_pod name namespace
    (merge_config (pod_templates.pod_templates t) custom_config) = Ok pod ->
  oracle s (length (trace s)) (create_namespaced_pod namespace pod) = Rejected status text ->
  pod_tools.create_pod name namespace template custom_config s
  = (Ok ("Error creating pod: " +:+ text),
     {| oracle := oracle s;
        trace := trace s ++ [Called (create_namespaced_pod namespace pod)];
        tracked := tracked s |}).
Proof.
  intros Ht Hpod Hanswer. unfold pod_tools.create_pod. rewrite Ht. cbn zeta.
  unfold lift at 1. unfold bind at 1. rewrite Hpod.
  unfold try_except, bind, api, request. cbn beta zeta. by rewrite Hanswer.
Qed.

Lemma create_pod_unanswered name namespace template custom_config s t pod text :
  pod_templates.lookup_member template = Ok t ->
  pod_tools.build_pod name namespace
    (merge_config (pod_templates.pod_templates t) custom_config) = Ok pod ->
  oracle s (length (trace s)) (create_namespaced_pod namespace pod) = Failed text ->
  pod_tools.create_pod name namespace template custom_config s
  = (Raise (Exception text),
     {| oracle := oracle s;
        trace := trace s ++ [Called (create_namespaced_pod namespace pod)];
        tracked := tracked s |}).
Proof.
  intros Ht Hpod Hanswer. unfold pod_tools.create_pod. rewrite Ht. cbn zeta.
  unfold lift at 1. unfold bind at 1. rewrite Hpod.
  unfold try_except, bind, api, request. cbn beta zeta. by rewrite Hanswer.
Qed.

(** The same for [create_job], where an accepted create ends in the
    [TypeError] of [await]; the registry is the same in all three. *)
Lemma create_job_outcome name namespace template completions parallelism backoff_limit
    custom_config s t job :
  container_templates.lookup_member template = Ok t ->
  job_tools.build_job name namespace completions parallelism backoff_limit
    (merge_config (container_templates.container_templates t) custom_config) = Ok job ->
  job_tools.create_job name namespace template completions parallelism backoff_limit
    custom_config s
  = (awaited_outcome "Error creating job: "
       (oracle s (length (trace s)) (create_namespaced_job namespace job)),
     {| oracle := oracle s;
        trace := trace s ++ [Called (create_namespaced_job namespace job)];
        tracked := tracked s |}).
Proof.
  intros Ht Hjob. unfold job_tools.create_job. rewrite Ht. cbn zeta.
  unfold lift at 1. unfold bind at 1. rewrite Hjob.
  unfold try_except, bind, api, request, await, raise, awaited_outcome. cbn beta zeta.
  by destruct (oracle s _ _).
Qed.

Lemma create_cronjob_outcome name namespace schedule template completions parallelism
    backoff_limit custom_config s t cronjob :
  container_templates.lookup_member template = Ok t ->
  cronjob_tools.build_cronjob name namespace schedule completions parallelism backoff_limit
    (merge_config (container_templates.container_templates t) custom_config) = Ok cronjob ->
  cronjob_tools.create_cronjob name namespace schedule template completions parallelism
    backoff_limit custom_config s
  = (awaited_outcome "Error creating cronjob: "
       (oracle s (length (trace s)) (create_namespaced_cron_job namespace cronjob)),
     {| oracle := oracle s;
        trace := trace s ++ [Called (create_namespaced_cron_job namespace cronjob)];
        tracked := tracked s |}).
Proof.
  intros Ht Hcronjob. unfold cronjob_tools.create_cronjob. rewrite Ht. cbn zeta.
  unfold lift at 1. unfold bind at 1. rewrite Hcronjob.
  unfold try_except, bind, api, request, await, raise, awaited_outcome. cbn beta zeta.
  by destruct (oracle s _ _).
Qed.

(** C7 (as amended).  [create_pod] and [create_job] answer an identifier
    that is the value of no member with the text that lists the members'
    names.  Otherwise, when the merged configuration can be built from,
    that is, it carries an image, every port entry carries a
    ["containerPort"], every environment entry a ["name"], and the
    resources are a mapping, the resource is built and submitted, and
    [create_pod] returns a text whenever the server answers: the
    description of the pod it returned (taken to carry its status), or
    the server's error after ["Error creating pod: "]; a call that fails
    in another way lets that exception through.  [create_job] renders the
    server's error after ["Error creating job: "]. *)
Theorem create_from_template_returns_text
    name namespace template custom_config s
    job_name job_namespace job_template completions parallelism backoff_limit
    job_custom_config job_s :
  pod_request_ok template custom_config = true ->
  pods_served (oracle s) ->
  job_request_ok job_template job_custom_config = true ->
  let create_pod := pod_tools.create_pod name namespace template custom_config s in
  let create_job :=
    job_tools.create_job job_name job_namespace job_template completions parallelism
      backoff_limit job_custom_config job_s in
  match pod_templates.lookup_member template with
  | Raise _ =>
      create_pod
      = (Ok "Invalid template. Must be one of: NGINX, REDIS, POSTGRES, MYSQL, CUSTOM", s)
  | Ok t =>
      exists pod,
        pod_tools.build_pod name namespace
          (merge_config (pod_templates.pod_templates t) custom_config) = Ok pod
        /\ calls (trace create_pod.2)
           = calls (trace s) ++ [create_namespaced_pod namespace pod]
        /\ match oracle s (length (trace s)) (create_namespaced_pod namespace pod) with
           | Returned response =>
               exists info,
                 pod_tools.format_pod_info response = Ok info
                 /\ create_pod.1 = Ok ("Pod created successfully:" +:+ nl +:+ info)
           | Rejected _ text => create_pod.1 = Ok ("Error creating pod: " +:+ text)
           | Failed text => create_pod.1 = Raise (Exception text)
           end
  end
  /\ match container_templates.lookup_member job_template with
     | Raise _ =>
         create_job
         = (Ok "Invalid template. Must be one of: NGINX, NODEJS, PYTHON, CUSTOM", job_s)
     | Ok j =>
         exists job,
           job_tools.build_job job_name job_namespace completions parallelism backoff_limit
             (merge_config (container_templates.container_templates j) job_custom_config)
           = Ok job
           /\ calls (trace create_job.2)
              = calls (trace job_s) ++ [create_namespaced_job job_namespace job]
           /\ forall status text,
                oracle job_s (length (trace job_s)) (create_namespaced_job job_namespace job)
                = Rejected status text ->
                create_job.1 = Ok ("Error creating job: " +:+ text)
     end.
Proof.
  intros Hpod Hserved Hjob create_pod create_job. split.
  - unfold pod_request_ok in Hpod. subst create_pod.
    destruct (pod_templates.lookup_member template) as [t|e] eqn:Ht.
    + destruct (buildable_build_pod name namespace _ Hpod) as [pod Hbuilt].
      exists pod. split_and!; [done | by apply (create_pod_sends _ _ _ _ _ t) |].
      destruct (oracle s _ _) as [response|status text|text] eqn:Hanswer.
      * destruct (Hserved _ _ _ _ Hanswer) as [status Hstatus].
        assert (exists info, pod_tools.format_pod_info response = Ok info) as [info Hinfo].
        { unfold pod_tools.format_pod_info, attr. rewrite Hstatus. by eexists. }
        exists info. split; [done|].
        by rewrite (create_pod_accepted _ _ _ _ _ _ _ _ _ Ht Hbuilt Hanswer Hinfo).
      * by rewrite (create_pod_remote_error _ _ _ _ _ _ _ _ _ Ht Hbuilt Hanswer).
      * by rewrite (create_pod_unanswered _ _ _ _ _ _ _ _ Ht Hbuilt Hanswer).
    + destruct (pod_lookup_member_raises _ _ Ht) as [msg ->].
      unfold pod_tools.create_pod. by rewrite Ht.
  - unfold job_request_ok in Hjob. subst create_job.
    destruct (container_templates.lookup_member job_template) as [j|e] eqn:Hj.
    + destruct (buildable_build_job job_name job_namespace completions parallelism
                  backoff_limit _ Hjob) as [job Hbuilt].
      exists job. split_and!; [done | by apply (create_job_sends _ _ _ _ _ _ _ _ j) |].
      intros status text Hanswer.
      rewrite (create_job_outcome _ _ _ _ _ _ _ _ _ _ Hj Hbuilt), Hanswer. done.
    + destruct (job_lookup_member_raises _ _ Hj) as [msg ->].
      unfold job_tools.create_job. by rewrite Hj.
Qed.

Lemma accepting_pods_served : pods_served accepting.
Proof.
  intros n namespace body pod. unfold accepting, cluster. cbn.
  intros [= <-]. by eexists.
Qed.

Lemma refusing_jobs_pods_served : pods_served refusing_jobs.
Proof.
  intros n namespace body pod. unfold refusing_jobs, cluster. cbn.
  intros [= <-]. by eexists.
Qed.

Lemma create_from_template_returns_text_witness :
  (exists info s',
     pod_tools.create_pod "cache" "default" "REDIS"
       (Some (dict [("image", PStr "redis:7")])) (boot accepting)
     = (Ok ("Pod created successfully:" +:+ nl +:+ info), s'))
  /\ (exists s',
        job_tools.create_job "report" "default" "python" 1 1 6
          (Some (dict [("command", PList [PStr "python"; PStr "report.py"])]))
          (boot refusing_jobs)
        = (Ok "Error creating job: (403) Reason: Forbidden", s')).
Proof.
  destruct (create_from_template_returns_text
              "cache" "default" "REDIS" (Some (dict [("image", PStr "redis:7")]))
              (boot accepting)
              "report" "default" "python" 1 1 6
              (Some (dict [("command", PList [PStr "python"; PStr "report.py"])]))
              (boot refusing_jobs))
    as [Hpod Hjob]; [reflexivity | exact accepting_pods_served | reflexivity |].
  split.
  - destruct Hpod as (pod & _ & _ & info & _ & Hrun).
    exists info. eexists. apply injective_projections; [exact Hrun | reflexivity].
  - destruct Hjob as (job & Hbuilt & _ & Hrun).
    eexists. apply injective_projections; [|reflexivity]. cbn [fst].
    apply (Hrun 403%Z). vm_compute in Hbuilt. injection Hbuilt as <-. reflexivity.
Defined.

(** C7, counterexample.  A port entry without ["containerPort"] and a
    template without an image both end the operation with a [KeyError]
    that no handler catches. *)
Lemma create_from_template_raises_key_error :
  (pod_tools.create_pod "web" "default" "NGINX"
     (Some (dict [("ports", PList [PDict (dict [("protocol", PStr "TCP")])])]))
     (boot accepting)).1 = Raise (KeyError "containerPort")
  /\ (job_tools.create_job "task" "default" "custom" 1 1 6 None (boot accepting)).1
     = Raise (KeyError "image").
Proof. vm_compute. split; reflexivity. Qed.

(** * Further properties *)

(** ** The manager and its registry *)

(** X1.  Building a manager tries in-cluster discovery first and the local
    credential file only when that fails with [ConfigException].  When
    both fail so, the outcome is [RuntimeError] and never [ConfigException];
    a failure of another class leaves the constructor as it is, and after
    the first loader it keeps the second from being tried.  A manager that
    is built starts with an empty registry. *)
Theorem manager_init_outcomes s :
  let n := length (trace s) in
  let after (tr : list event) :=
    {| oracle := oracle s; trace := trace s ++ tr; tracked := tracked s |} in
  k8s_manager.__init__ s
  = match oracle s n load_incluster_config with
    | Returned _ => (Ok [], after [Called load_incluster_config])
    | Rejected _ _ =>
        match oracle s (S n) load_kube_config with
        | Returned _ => (Ok [], after [Called load_incluster_config; Called load_kube_config])
        | Rejected _ _ =>
            (Raise (RuntimeError "Could not configure kubernetes python client"),
             after [Called load_incluster_config; Called load_kube_config])
        | Failed text =>
            (Raise (Exception text),
             after [Called load_incluster_config; Called load_kube_config])
        end
    | Failed text => (Raise (Exception text), after [Called load_incluster_config])
    end.
Proof.
  intros n after. unfold k8s_manager.__init__, try_except, bind, config, request, ret, raise.
  cbn beta zeta. fold n.
  destruct (oracle s n load_incluster_config); [reflexivity| |reflexivity].
  cbn. rewrite length_app, Nat.add_1_r. fold n.
  destruct (oracle s (S n) load_kube_config); cbn; unfold after; by rewrite <- app_assoc.
Qed.

Lemma track_resource_registry_ok k n ns s :
  registry_ok (tracked s) -> registry_ok (tracked (k8s_manager.track_resource k n ns s).2).
Proof.
  intros [Hkeys Hspell]. split; cbn.
  - by apply dict_set_NoDup.
  - clear Hkeys. induction (tracked s) as [|[k' e'] reg IH]; cbn.
    + by repeat constructor.
    + apply Forall_cons in Hspell as [Hhead Htail].
      destruct (String.eqb k' (ns +:+ "/" +:+ n)); constructor; auto.
Qed.

(** X2.  Whatever a session records, the registry never holds two entries
    under one key, and every entry is stored under the key
    ["namespace/name"] that its own fields spell. *)
Theorem registry_invariant o history :
  registry_ok (tracked (record_all history (boot o)).2).
Proof.
  assert (forall s, registry_ok (tracked s) ->
                    registry_ok (tracked (record_all history s).2)) as H.
  { induction history as [|[[k n] ns] history IH]; intros s Hs; [exact Hs|].
    unfold record_all. cbn [for_each]. erewrite bind_ok; [|reflexivity].
    apply IH. by apply (track_resource_registry_ok k n ns s). }
  apply H. split; cbn; [apply NoDup_nil_2 | constructor].
Qed.

Lemma dict_get_set_ne {V} k k' (v : V) d : k' ≠ k -> dict_get k' (dict_set k v d) = dict_get k' d.
Proof.
  intros Hne. induction d as [|[k0 v0] d IH]; cbn.
  - destruct (String.eqb k k') eqn:E; [|done]. apply String.eqb_eq in E. congruence.
  - destruct (String.eqb k0 k) eqn:E; cbn.
    + apply String.eqb_eq in E as ->.
      destruct (String.eqb k k') eqn:E'; [|done]. apply String.eqb_eq in E'. congruence.
    + by rewrite IH.
Qed.

(** X3.  Recording a resource touches one key only: every entry stored
    under another key is found unchanged. *)
Theorem track_resource_other_keys k n ns s key :
  key ≠ ns +:+ "/" +:+ n ->
  dict_get key (tracked (k8s_manager.track_resource k n ns s).2) = dict_get key (tracked s).
Proof. intros Hne. cbn. by apply dict_get_set_ne. Qed.

Lemma track_resource_other_keys_witness :
  dict_get "default/db"
    (tracked (k8s_manager.track_resource "Pod" "web" "default"
                {| oracle := accepting; trace := [];
                   tracked := [("default/db",
                                {| kind := "Job"; name := "db"; namespace := "default" |})] |}).2)
  = Some {| kind := "Job"; name := "db"; namespace := "default" |}.
Proof. by apply (track_resource_other_keys "Pod" "web" "default"). Defined.

(** The sweep visits entries in the order their keys were first
    recorded: a new key is appended after the existing ones, and recording
    under a key that is present leaves the order as it is. *)
Theorem track_resource_keeps_order k n ns s :
  let key := ns +:+ "/" +:+ n in
  dict_keys (tracked (k8s_manager.track_resource k n ns s).2)
  = if bool_decide (key ∈ dict_keys (tracked s))
    then dict_keys (tracked s)
    else dict_keys (tracked s) ++ [key].
Proof. cbn. apply dict_keys_set. Qed.

Lemma key_injective ns1 n1 ns2 n2 :
  free_of_slash ns1 = true -> free_of_slash ns2 = true ->
  ns1 +:+ "/" +:+ n1 = ns2 +:+ "/" +:+ n2 -> ns1 = ns2 /\ n1 = n2.
Proof.
  revert ns2. induction ns1 as [|c ns1 IH]; intros [|c' ns2]; cbn.
  - intros _ _ [= Hn]. by subst.
  - intros _ H [= Hc _]. subst c'. by rewrite Ascii.eqb_refl in H.
  - intros H _ [= Hc _]. subst c. by rewrite Ascii.eqb_refl in H.
  - intros [_ H1]%andb_prop [_ H2]%andb_prop [= Hc Hrest]. subst c'.
    destruct (IH ns2 H1 H2 Hrest) as [Hns Hn]. by subst.
Qed.

(** X4.  Two resources that differ in namespace or name are both kept,
    provided their namespaces contain no ["/"]: the keys then differ, and
    after recording one and then the other each is found under its own
    key. *)
Theorem track_resource_distinct_resources k1 n1 ns1 k2 n2 ns2 s :
  free_of_slash ns1 = true -> free_of_slash ns2 = true ->
  (ns1, n1) ≠ (ns2, n2) ->
  let s' :=
    (let* _ := k8s_manager.track_resource k1 n1 ns1 in
     k8s_manager.track_resource k2 n2 ns2) s in
  dict_get (ns1 +:+ "/" +:+ n1) (tracked s'.2)
    = Some {| kind := k1; name := n1; namespace := ns1 |}
  /\ dict_get (ns2 +:+ "/" +:+ n2) (tracked s'.2)
     = Some {| kind := k2; name := n2; namespace := ns2 |}.
Proof.
  intros H1 H2 Hne. cbn. split.
  - rewrite dict_get_set_ne, dict_get_set_eq; [done|].
    intros Heq. destruct (key_injective _ _ _ _ H1 H2 Heq) as [-> ->]. done.
  - apply dict_get_set_eq.
Qed.

Lemma track_resource_distinct_resources_witness :
  let s' :=
    (let* _ := k8s_manager.track_resource "Pod" "web" "default" in
     k8s_manager.track_resource "Pod" "web" "staging") (boot accepting) in
  dict_get "default/web" (tracked s'.2)
    = Some {| kind := "Pod"; name := "web"; namespace := "default" |}
  /\ dict_get "staging/web" (tracked s'.2)
     = Some {| kind := "Pod"; name := "web"; namespace := "staging" |}.
Proof.
  apply (track_resource_distinct_resources "Pod" "web" "default" "Pod" "web" "staging");
    [reflexivity | reflexivity | discriminate].
Defined.

(** Without that proviso the keys can coincide. *)
Example track_resource_slash_collision :
  dict_values
    (tracked ((let* _ := k8s_manager.track_resource "Pod" "c" "a/b" in
               k8s_manager.track_resource "Pod" "b/c" "a") (boot accepting)).2)
  = [{| kind := "Pod"; name := "b/c"; namespace := "a" |}].
Proof. reflexivity. Qed.

Lemma for_each_cleanup_accepted l s :
  deletes_accepted (oracle s) ->
  for_each k8s_manager.cleanup_entry l s
  = (Ok tt, {| oracle := oracle s;
               trace := trace s ++ map Called (omap delete_call l);
               tracked := tracked s |}).
Proof.
  intros Hacc. revert s Hacc. induction l as [|e l IH]; intros s Hacc.
  - cbn. rewrite app_nil_r. by destruct s.
  - cbn [for_each omap list_omap].
    assert (k8s_manager.cleanup_entry e s
            = (Ok tt, {| oracle := oracle s;
                         trace := trace s ++ map Called (option_list (delete_call e));
                         tracked := tracked s |})) as Hentry.
    { pose proof (Hacc (length (trace s)) e) as He.
      unfold k8s_manager.cleanup_entry, k8s_manager.delete_resource.
      unfold delete_call in *.
      repeat (destruct (String.eqb (kind e) _);
              [ destruct (He _ eq_refl) as [r Hr];
                unfold try_except, bind, api, request; cbn beta zeta;
                by rewrite Hr
              | ]).
      cbn. rewrite app_nil_r. by destruct s. }
    rewrite (bind_ok _ _ _ _ _ Hentry). rewrite IH; [|exact Hacc].
    cbn. f_equal. f_equal. rewrite <- app_assoc. f_equal.
    by destruct (delete_call e).
Qed.

(** X5.  When the cluster accepts every delete, the sweep writes no log
    line: what it adds to the trace is exactly the delete requests of the
    tracked entries, in registry order. *)
Theorem cleanup_resources_quiet_when_accepted s :
  deletes_accepted (oracle s) ->
  k8s_manager.cleanup_resources s
  = (Ok tt, {| oracle := oracle s;
               trace := trace s ++ map Called (omap delete_call (dict_values (tracked s)));
               tracked := [] |}).
Proof.
  intros Hacc. unfold k8s_manager.cleanup_resources, bind. cbn beta.
  by rewrite (for_each_cleanup_accepted _ _ Hacc).
Qed.

Lemma accepting_deletes_accepted : deletes_accepted accepting.
Proof.
  intros n e c. unfold delete_call.
  repeat (destruct (String.eqb (kind e) _); [intros [= <-]; by eexists|]).
  done.
Qed.

Lemma cleanup_resources_quiet_when_accepted_witness :
  k8s_manager.cleanup_resources
    {| oracle := accepting; trace := [];
       tracked := [("default/web", {| kind := "Pod"; name := "web"; namespace := "default" |});
                   ("default/load", {| kind := "Job"; name := "load"; namespace := "default" |})] |}
  = (Ok tt, {| oracle := accepting;
               trace := [Called (delete_namespaced_pod "web" "default");
                         Called (delete_namespaced_job "load" "default")];
               tracked := [] |}).
Proof.
  apply (cleanup_resources_quiet_when_accepted
           {| oracle := accepting; trace := [];
              tracked := [("default/web",
                           {| kind := "Pod"; name := "web"; namespace := "default" |});
                          ("default/load",
                           {| kind := "Job"; name := "load"; namespace := "default" |})] |}).
  exact accepting_deletes_accepted.
Defined.

(** ** Computations that only talk to the cluster *)

Lemma extends_refl s : extends s s.
Proof. split_and!; [done | done | exists []; by rewrite app_nil_r]. Qed.

Lemma extends_trans s1 s2 s3 : extends s1 s2 -> extends s2 s3 -> extends s1 s3.
Proof.
  intros (Ho1 & Ht1 & tr1 & Htr1) (Ho2 & Ht2 & tr2 & Htr2). split_and!.
  - congruence.
  - congruence.
  - exists (tr1 ++ tr2). by rewrite Htr2, Htr1, app_assoc.
Qed.

Lemma frames_ret {A} (a : A) : frames (ret a).
Proof. intros s. apply extends_refl. Qed.

Lemma frames_raise {A} e : frames (@raise A e).
Proof. intros s. apply extends_refl. Qed.

Lemma frames_lift {A} (r : result A) : frames (lift r).
Proof. intros s. apply extends_refl. Qed.

Lemma frames_bind {A B} (m : M A) (k : A -> M B) :
  frames m -> (forall a, frames (k a)) -> frames (bind m k).
Proof.
  intros Hm Hk s. unfold bind. specialize (Hm s).
  destruct (m s) as [[a|e] s1]; cbn in *; [|done].
  eapply extends_trans; [exact Hm | apply Hk].
Qed.

Lemma frames_try_except {A} (body : M A) handler :
  frames body -> (forall e h, handler e = Some h -> frames h) ->
  frames (try_except body handler).
Proof.
  intros Hbody Hh s. unfold try_except. specialize (Hbody s).
  destruct (body s) as [[a|e] s1]; cbn in *; [done|].
  destruct (handler e) as [h|] eqn:E; [|done].
  eapply extends_trans; [exact Hbody | by eapply Hh].
Qed.

Lemma frames_request failure c : frames (request failure c).
Proof.
  intros s. unfold request.
  destruct (oracle s _ c); (split_and!; [done | done | by eexists]).
Qed.

Lemma frames_api c : frames (api c).
Proof. apply frames_request. Qed.

Lemma frames_config c : frames (config c).
Proof. apply frames_request. Qed.

(** Discharges [frames] goals over sequences of binds. *)
Ltac frame :=
  repeat first
    [ apply frames_ret
    | apply frames_raise
    | apply frames_lift
    | lazymatch goal with
      | |- frames (api ?c) => exact (frames_api c)
      | |- frames (config ?c) => exact (frames_config c)
      end
    | apply frames_bind; [|intros ?] ].

Lemma frames_init : frames k8s_manager.__init__.
Proof.
  unfold k8s_manager.__init__.
  apply frames_bind; [|intros; apply frames_ret].
  apply frames_try_except; [frame|].
  intros e h He. destruct e; try discriminate He. injection He as <-.
  apply frames_try_except; [frame|].
  intros e h He. destruct e; try discriminate He. injection He as <-.
  frame.
Qed.

Lemma frames_apply_config_map namespace resource results :
  frames (apply_config_map namespace resource results).
Proof.
  unfold apply_config_map.
  apply frames_bind; [apply frames_init | intros _].
  apply frames_bind; [apply frames_lift | intros resource'].
  apply frames_try_except; [frame|].
  intros e h He. destruct e; try discriminate He. injection He as <-.
  destruct (status =? 404)%Z; frame.
Qed.

Lemma frames_apply_document namespace resource results :
  frames (apply_document namespace resource results).
Proof.
  unfold apply_document. destruct (negb (truthy resource)); [apply frames_ret|].
  apply frames_bind; [apply frames_lift | intros kind].
  destruct (py_eq_str kind "ConfigMap"); [apply frames_apply_config_map|].
  apply frames_bind; [apply frames_lift | intros; apply frames_ret].
Qed.

Lemma frames_apply_documents namespace resources results :
  frames (apply_documents namespace resources results).
Proof.
  revert results. induction resources as [|d resources IH]; intros results; cbn.
  - apply frames_ret.
  - apply frames_bind; [apply frames_apply_document | intros; apply IH].
Qed.

(** X6.  [apply_yaml] answers every batch with a text, whatever the
    documents hold and whatever the cluster does, and it leaves the
    registry as it found it: what it creates is not tracked. *)
Theorem apply_yaml_total_and_untracked resources namespace force s :
  exists text s',
    apply_yaml resources namespace force s = (Ok text, s')
    /\ tracked s' = tracked s.
Proof.
  pose proof (frames_apply_documents namespace resources [] s) as (_ & Htracked & _).
  unfold apply_yaml, try_except, bind, ret.
  destruct (apply_documents namespace resources [] s) as [[results|e] s1]; cbn in *;
    by do 2 eexists.
Qed.

(** X7.  Documents that decode to an empty value take no part in a
    batch: removing them changes neither the result nor what is sent. *)
Theorem apply_yaml_skips_empty_documents resources namespace force s :
  apply_yaml resources namespace force s
  = apply_yaml (List.filter truthy resources) namespace force s.
Proof.
  unfold apply_yaml, try_except. f_equal.
  assert (forall results s0,
             apply_documents namespace resources results s0
             = apply_documents namespace (List.filter truthy resources) results s0) as H.
  { induction resources as [|d resources IH]; intros results s0; [done|].
    cbn [List.filter apply_documents]. destruct (truthy d) eqn:E.
    - cbn [apply_documents]. unfold bind.
      destruct (apply_document namespace d results s0) as [[r|e] s1]; [apply IH|done].
    - unfold bind, apply_document. rewrite E. cbn. apply IH. }
  unfold bind. by rewrite H.
Qed.

Lemma apply_document_other_kind namespace d results s :
  is_config_map d = false -> (apply_document namespace d results s).2 = s.
Proof.
  unfold is_config_map, apply_document. intros H.
  destruct (negb (truthy d)); [done|].
  unfold bind, lift. destruct (py_getitem d "kind") as [kind|e]; [|done].
  by rewrite H.
Qed.

(** X8.  A batch in which no document is of kind ConfigMap is handled
    without the cluster: no manager is built and no request is sent,
    whether the batch ends in a report or in an error text. *)
Theorem apply_yaml_other_kinds_stay_local resources namespace force s :
  forallb (fun d => negb (is_config_map d)) resources = true ->
  (apply_yaml resources namespace force s).2 = s.
Proof.
  intros Hall.
  assert (forall results, (apply_documents namespace resources results s).2 = s) as H.
  { induction resources as [|d resources IH]; intros results; [done|].
    cbn in Hall. apply andb_prop in Hall as [Hd Hrest].
    apply negb_true_iff in Hd.
    pose proof (apply_document_other_kind namespace d results s Hd) as Hstate.
    cbn [apply_documents]. unfold bind.
    destruct (apply_document namespace d results s) as [[r|e] s1]; cbn in Hstate; subst s1.
    - by apply IH.
    - done. }
  specialize (H []). unfold apply_yaml, try_except, bind, ret.
  destruct (apply_documents namespace resources [] s) as [[r|e] s1]; by cbn in *.
Qed.

Lemma apply_yaml_other_kinds_stay_local_witness :
  (apply_yaml [secret "s1"; PNone; PDict (dict [("apiVersion", PStr "v1")]); secret "s2"]
     None false (boot forbidding_reads)).2
  = boot forbidding_reads.
Proof. by apply apply_yaml_other_kinds_stay_local. Defined.

Lemma apply_config_map_appends namespace d results s results' s' :
  apply_config_map namespace d results s = (Ok results', s') ->
  exists line, results' = results ++ [line].
Proof.
  unfold apply_config_map, try_except, bind, lift, api, request, ret, raise.
  intros H. repeat (case_match; simplify_eq); by eexists.
Qed.

Lemma apply_document_appends namespace d results s results' s' :
  apply_document namespace d results s = (Ok results', s') ->
  exists lines,
    results' = results ++ lines /\ length lines = if truthy d then 1%nat else 0%nat.
Proof.
  unfold apply_document. destruct (truthy d); cbn [negb].
  - unfold bind at 1. unfold lift at 1.
    destruct (py_getitem d "kind") as [kind|e]; [|done].
    destruct (py_eq_str kind "ConfigMap").
    + intros [line ->]%apply_config_map_appends. by exists [line].
    + unfold bind, lift, ret. intros [= <- _]. by eexists [_].
  - intros [= <- _]. exists []. by rewrite app_nil_r.
Qed.

(** X9.  A batch that runs to its end reports one line for each document
    that is not empty, after the lines it started from and in document
    order; lines once written are not changed. *)
Theorem apply_documents_one_line_per_document namespace resources results s results' s' :
  apply_documents namespace resources results s = (Ok results', s') ->
  exists lines,
    results' = results ++ lines
    /\ length lines = length (List.filter truthy resources).
Proof.
  revert results s. induction resources as [|d resources IH]; intros results s; cbn.
  - intros [= <- _]. exists []. by rewrite app_nil_r.
  - unfold bind.
    destruct (apply_document namespace d results s) as [[r|e] s1] eqn:Hd; [|done].
    intros Hrest. apply apply_document_appends in Hd as (l1 & -> & Hl1).
    apply IH in Hrest as (l2 & -> & Hl2).
    exists (l1 ++ l2). rewrite app_assoc. split; [done|].
    rewrite length_app, Hl1, Hl2. by destruct (truthy d).
Qed.

Lemma apply_documents_one_line_per_document_witness :
  exists lines,
    ["ConfigMap a created successfully"; "Unsupported resource kind: Secret"] = [] ++ lines
    /\ length lines
       = length (List.filter truthy [config_map "a" "default"; PNone; secret "s"]).
Proof.
  apply (apply_documents_one_line_per_document None
           [config_map "a" "default"; PNone; secret "s"] [] (boot empty_cluster)
           _ ((apply_documents None [config_map "a" "default"; PNone; secret "s"] []
                 (boot empty_cluster)).2)).
  vm_compute. reflexivity.
Defined.

(** The part of the upsert all its outcomes share: the document is a
    ConfigMap, a manager can be built, and name and namespace are read
    off the document after the namespace argument has been applied. *)
Lemma apply_document_config_map namespace d results s kind reg sa d' :
  py_getitem d "kind" = Ok kind ->
  py_eq_str kind "ConfigMap" = true ->
  k8s_manager.__init__ s = (Ok reg, sa) ->
  scoped namespace d = Ok d' ->
  apply_document namespace d results s
  = try_except
      (let* name := lift (metadata_field d' "name") in
       let* ns := lift (metadata_field d' "namespace") in
       let* existing := api (read_namespaced_config_map name ns) in
       let* name := lift (metadata_field d' "name") in
       let* ns := lift (metadata_field d' "namespace") in
       let* response := api (replace_namespaced_config_map name ns d') in
       let* name := lift (metadata_field d' "name") in
       ret (results ++ ["ConfigMap " +:+ py_str name +:+ " updated successfully"]))
      (fun e =>
         match e with
         | ApiException status _ =>
             Some (if (status =? 404)%Z then
                     let* ns := lift (metadata_field d' "namespace") in
                     let* response := api (create_namespaced_config_map ns d') in
                     let* name := lift (metadata_field d' "name") in
                     ret (results ++ ["ConfigMap " +:+ py_str name
                                        +:+ " created successfully"])
                   else raise e)
         | _ => None
         end) sa.
Proof.
  intros Hkind Hcm Hinit Hscoped. unfold apply_document.
  destruct d as [| | | | |m]; try discriminate Hkind.
  assert (truthy (PDict m) = true) as ->.
  { cbn in Hkind. destruct (m !! "kind") eqn:E; [|done]. by eapply kind_present_truthy. }
  cbn [negb]. unfold lift at 1. unfold bind at 1. rewrite Hkind, Hcm.
  unfold apply_config_map. rewrite (bind_ok _ _ _ _ _ Hinit).
  unfold lift at 1. unfold bind at 1. by rewrite Hscoped.
Qed.

(** X10.  Upsert, the resource exists: when the read and the replace both
    return, the document replaces the stored ConfigMap, with the document
    itself as the body, and its line says "updated". *)
Theorem apply_document_replaces_existing namespace d results s kind reg sa d' nm nsv
    found replaced :
  py_getitem d "kind" = Ok kind ->
  py_eq_str kind "ConfigMap" = true ->
  k8s_manager.__init__ s = (Ok reg, sa) ->
  scoped namespace d = Ok d' ->
  metadata_field d' "name" = Ok nm ->
  metadata_field d' "namespace" = Ok nsv ->
  oracle sa (length (trace sa)) (read_namespaced_config_map nm nsv) = Returned found ->
  oracle sa (S (length (trace sa))) (replace_namespaced_config_map nm nsv d')
    = Returned replaced ->
  apply_document namespace d results s
  = (Ok (results ++ ["ConfigMap " +:+ py_str nm +:+ " updated successfully"]),
     {| oracle := oracle sa;
        trace := (trace sa ++ [Called (read_namespaced_config_map nm nsv)])
                   ++ [Called (replace_namespaced_config_map nm nsv d')];
        tracked := tracked sa |}).
Proof.
  intros Hkind Hcm Hinit Hscoped Hname Hns Hread Hreplace.
  rewrite (apply_document_config_map _ _ _ _ _ _ _ _ Hkind Hcm Hinit Hscoped).
  unfold try_except, bind, lift, api, request. rewrite Hname, Hns, Hread.
  cbn. by rewrite length_app, Nat.add_1_r, Hreplace.
Qed.

Lemma apply_document_replaces_existing_witness :
  apply_document None (config_map "a" "default") [] (boot accepting)
  = (Ok ([] ++ ["ConfigMap " +:+ py_str (PStr "a") +:+ " updated successfully"]),
     {| oracle := accepting;
        trace := ([Called load_incluster_config]
                    ++ [Called (read_namespaced_config_map (PStr "a") (PStr "default"))])
                   ++ [Called (replace_namespaced_config_map (PStr "a") (PStr "default")
                                 (config_map "a" "default"))];
        tracked := [] |}).
Proof.
  apply (apply_document_replaces_existing None (config_map "a" "default") [] (boot accepting)
           (PStr "ConfigMap") []
           {| oracle := accepting; trace := [Called load_incluster_config]; tracked := [] |}
           (config_map "a" "default") (PStr "a") (PStr "default")
           (an "V1ConfigMap") (an "V1ConfigMap"));
    reflexivity.
Defined.

(** X11.  Upsert, the resource is missing: when the read is answered 404
    and the create returns, the document is created in the namespace it
    names and its line says "created". *)
Theorem apply_document_creates_missing namespace d results s kind reg sa d' nm nsv
    missing created :
  py_getitem d "kind" = Ok kind ->
  py_eq_str kind "ConfigMap" = true ->
  k8s_manager.__init__ s = (Ok reg, sa) ->
  scoped namespace d = Ok d' ->
  metadata_field d' "name" = Ok nm ->
  metadata_field d' "namespace" = Ok nsv ->
  oracle sa (length (trace sa)) (read_namespaced_config_map nm nsv) = Rejected 404 missing ->
  oracle sa (S (length (trace sa))) (create_namespaced_config_map nsv d')
    = Returned created ->
  apply_document namespace d results s
  = (Ok (results ++ ["ConfigMap " +:+ py_str nm +:+ " created successfully"]),
     {| oracle := oracle sa;
        trace := (trace sa ++ [Called (read_namespaced_config_map nm nsv)])
                   ++ [Called (create_namespaced_config_map nsv d')];
        tracked := tracked sa |}).
Proof.
  intros Hkind Hcm Hinit Hscoped Hname Hns Hread Hcreate.
  rewrite (apply_document_config_map _ _ _ _ _ _ _ _ Hkind Hcm Hinit Hscoped).
  unfold try_except, bind, lift, api, request. rewrite Hname, Hns, Hread.
  cbn. by rewrite length_app, Nat.add_1_r, Hcreate.
Qed.

Lemma apply_document_creates_missing_witness :
  apply_document None (config_map "a" "default") [] (boot empty_cluster)
  = (Ok ([] ++ ["ConfigMap " +:+ py_str (PStr "a") +:+ " created successfully"]),
     {| oracle := empty_cluster;
        trace := ([Called load_incluster_config]
                    ++ [Called (read_namespaced_config_map (PStr "a") (PStr "default"))])
                   ++ [Called (create_namespaced_config_map (PStr "default")
                                 (config_map "a" "default"))];
        tracked := [] |}).
Proof.
  apply (apply_document_creates_missing None (config_map "a" "default") [] (boot empty_cluster)
           (PStr "ConfigMap") []
           {| oracle := empty_cluster; trace := [Called load_incluster_config]; tracked := [] |}
           (config_map "a" "default") (PStr "a") (PStr "default")
           "(404) Reason: Not Found" (an "V1ConfigMap"));
    reflexivity.
Defined.

(** X12.  The handler covers the replace as well as the read: when the
    read returns but the replace is answered 404, the document is created
    after all, and the batch goes on. *)
Theorem apply_document_creates_after_lost_replace namespace d results s kind reg sa d'
    nm nsv found missing created :
  py_getitem d "kind" = Ok kind ->
  py_eq_str kind "ConfigMap" = true ->
  k8s_manager.__init__ s = (Ok reg, sa) ->
  scoped namespace d = Ok d' ->
  metadata_field d' "name" = Ok nm ->
  metadata_field d' "namespace" = Ok nsv ->
  oracle sa (length (trace sa)) (read_namespaced_config_map nm nsv) = Returned found ->
  oracle sa (S (length (trace sa))) (replace_namespaced_config_map nm nsv d')
    = Rejected 404 missing ->
  oracle sa (S (S (length (trace sa)))) (create_namespaced_config_map nsv d')
    = Returned created ->
  apply_document namespace d results s
  = (Ok (results ++ ["ConfigMap " +:+ py_str nm +:+ " created successfully"]),
     {| oracle := oracle sa;
        trace := ((trace sa ++ [Called (read_namespaced_config_map nm nsv)])
                    ++ [Called (replace_namespaced_config_map nm nsv d')])
                   ++ [Called (create_namespaced_config_map nsv d')];
        tracked := tracked sa |}).
Proof.
  intros Hkind Hcm Hinit Hscoped Hname Hns Hread Hreplace Hcreate.
  rewrite (apply_document_config_map _ _ _ _ _ _ _ _ Hkind Hcm Hinit Hscoped).
  unfold try_except, bind, lift, api, request. rewrite Hname, Hns, Hread.
  cbn. rewrite length_app, Nat.add_1_r, Hreplace.
  cbn. by rewrite !length_app, !Nat.add_1_r, Hcreate.
Qed.

Lemma apply_document_creates_after_lost_replace_witness :
  apply_document None (config_map "a" "default") [] (boot vanishing)
  = (Ok ([] ++ ["ConfigMap " +:+ py_str (PStr "a") +:+ " created successfully"]),
     {| oracle := vanishing;
        trace := (([Called load_incluster_config]
                     ++ [Called (read_namespaced_config_map (PStr "a") (PStr "default"))])
                    ++ [Called (replace_namespaced_config_map (PStr "a") (PStr "default")
                                  (config_map "a" "default"))])
                   ++ [Called (create_namespaced_config_map (PStr "default")
                                 (config_map "a" "default"))];
        tracked := [] |}).
Proof.
  apply (apply_document_creates_after_lost_replace None (config_map "a" "default") []
           (boot vanishing) (PStr "ConfigMap") []
           {| oracle := vanishing; trace := [Called load_incluster_config]; tracked := [] |}
           (config_map "a" "default") (PStr "a") (PStr "default")
           (an "V1ConfigMap") "(404) Reason: Not Found" (an "V1ConfigMap"));
    reflexivity.
Defined.

(** X13.  A namespace argument that is not empty takes the place of the
    namespace of the document, whether the document names one or not:
    after it has been applied, the document's namespace reads as the
    argument, while its name and its kind read as before. *)
Theorem scoped_namespace_wins ns (m md : gmap string pyval) :
  ns ≠ "" ->
  m !! "metadata" = Some (PDict md) ->
  exists d',
    scoped (Some ns) (PDict m) = Ok d'
    /\ metadata_field d' "namespace" = Ok (PStr ns)
    /\ metadata_field d' "name" = metadata_field (PDict m) "name"
    /\ py_getitem d' "kind" = py_getitem (PDict m) "kind".
Proof.
  intros Hns Hmd.
  exists (PDict (<["metadata" := PDict (<["namespace" := PStr ns]> md)]> m)).
  assert (truthy (PStr ns) = true) as Htruthy.
  { cbn. destruct (String.eqb ns "") eqn:E; [|done]. by apply String.eqb_eq in E. }
  split_and!.
  - unfold scoped, override_namespace. rewrite Htruthy. cbn. by rewrite Hmd.
  - unfold metadata_field. cbn. rewrite lookup_insert_eq. cbn. by rewrite lookup_insert_eq.
  - unfold metadata_field. cbn. rewrite lookup_insert_eq, Hmd. cbn.
    by rewrite lookup_insert_ne.
  - cbn. by rewrite lookup_insert_ne.
Qed.

Lemma scoped_namespace_wins_witness :
  exists d',
    scoped (Some "prod") (config_map "a" "default") = Ok d'
    /\ metadata_field d' "namespace" = Ok (PStr "prod")
    /\ metadata_field d' "name" = metadata_field (config_map "a" "default") "name"
    /\ py_getitem d' "kind" = py_getitem (config_map "a" "default") "kind".
Proof.
  apply (scoped_namespace_wins "prod" _
           (dict [("name", PStr "a"); ("namespace", PStr "default")])).
  - discriminate.
  - reflexivity.
Defined.

(** X14.  A ConfigMap document that names no namespace, applied without a
    namespace argument, ends the batch: a manager is built for it, the
    lookup of the namespace fails before any request is sent, and the
    result is ["Error applying YAML: 'namespace'"]. *)
Theorem apply_yaml_missing_namespace force pre (m md : gmap string pyval) post s results s1
    kind nm reg sa :
  apply_documents None pre [] s = (Ok results, s1) ->
  m !! "kind" = Some kind ->
  py_eq_str kind "ConfigMap" = true ->
  m !! "metadata" = Some (PDict md) ->
  md !! "name" = Some nm ->
  md !! "namespace" = None ->
  k8s_manager.__init__ s1 = (Ok reg, sa) ->
  apply_yaml (pre ++ PDict m :: post) None force s
  = (Ok "Error applying YAML: 'namespace'", sa).
Proof.
  intros Hpre Hkind Hcm Hmd Hname Hns Hinit.
  apply (apply_yaml_abort _ force _ _ post _ _ _ (KeyError "namespace") _ Hpre).
  rewrite (apply_document_config_map None (PDict m) results s1 kind reg sa (PDict m));
    [| by cbn; rewrite Hkind | done | done | done].
  unfold try_except, bind, lift, metadata_field. cbn. rewrite Hmd. cbn.
  by rewrite Hname, Hns.
Qed.

Lemma apply_yaml_missing_namespace_witness :
  apply_yaml ([secret "s"]
                ++ PDict (dict [("kind", PStr "ConfigMap");
                                ("metadata", PDict (dict [("name", PStr "cm1")]))])
                :: [secret "t"])
    None false (boot empty_cluster)
  = (Ok "Error applying YAML: 'namespace'",
     {| oracle := empty_cluster; trace := [Called load_incluster_config]; tracked := [] |}).
Proof.
  apply (apply_yaml_missing_namespace false [secret "s"]
           (dict [("kind", PStr "ConfigMap");
                  ("metadata", PDict (dict [("name", PStr "cm1")]))])
           (dict [("name", PStr "cm1")]) [secret "t"] (boot empty_cluster)
           ["Unsupported resource kind: Secret"] (boot empty_cluster)
           (PStr "ConfigMap") (PStr "cm1") []);
    reflexivity.
Defined.

(** ** Templates and creation *)

(** X15.  Looking a template up by its value and reading the value of a
    member are inverse to each other, in both enumerations: an identifier
    is accepted exactly when it is the value of the member found, so the
    match is exact and case-sensitive. *)
Theorem template_lookup_round_trip (value : string) (t : pod_templates.ContainerTemplate)
    (j : container_templates.ContainerTemplate) :
  (pod_templates.lookup_member value = Ok t <-> value = pod_templates.member_value t)
  /\ (container_templates.lookup_member value = Ok j
      <-> value = container_templates.member_value j).
Proof.
  split; split.
  - unfold pod_templates.lookup_member.
    destruct (List.find _ _) as [t'|] eqn:E; [|done].
    intros [= ->]. apply find_some in E as [_ E]. symmetry. by apply String.eqb_eq.
  - intros ->. by destruct t.
  - unfold container_templates.lookup_member.
    destruct (List.find _ _) as [j'|] eqn:E; [|done].
    intros [= ->]. apply find_some in E as [_ E]. symmetry. by apply String.eqb_eq.
  - intros ->. by destruct j.
Qed.

(** X16.  The identifiers that the error message of [create_job] and
    [create_cronjob] lists are the members' names, while the lookup goes
    by the members' values: each listed identifier is itself answered
    with the same message, and nothing is sent or recorded. *)
Theorem create_job_rejects_listed_names (t : container_templates.ContainerTemplate)
    name namespace schedule completions parallelism backoff_limit custom_config s :
  job_tools.create_job name namespace (container_templates.member_name t)
    completions parallelism backoff_limit custom_config s
  = (Ok "Invalid template. Must be one of: NGINX, NODEJS, PYTHON, CUSTOM", s)
  /\ cronjob_tools.create_cronjob name namespace schedule (container_templates.member_name t)
       completions parallelism backoff_limit custom_config s
     = (Ok "Invalid template. Must be one of: NGINX, NODEJS, PYTHON, CUSTOM", s).
Proof. by destruct t. Qed.

Lemma pod_lookup_member_unknown template :
  (forall t, template ≠ pod_templates.member_value t) ->
  exists msg, pod_templates.lookup_member template = Raise (ValueError msg).
Proof.
  intros H. unfold pod_templates.lookup_member.
  destruct (List.find _ _) as [t|] eqn:E; [|by eexists].
  apply find_some in E as [_ E]. apply String.eqb_eq in E. by destruct (H t).
Qed.

(** X17.  An identifier that is the value of no member makes [create_pod]
    answer with the list of the members' names; no request is sent and
    the registry is left alone. *)
Theorem create_pod_unknown_template name namespace template custom_config s :
  (forall t, template ≠ pod_templates.member_value t) ->
  pod_tools.create_pod name namespace template custom_config s
  = (Ok "Invalid template. Must be one of: NGINX, REDIS, POSTGRES, MYSQL, CUSTOM", s).
Proof.
  intros H. destruct (pod_lookup_member_unknown template H) as [msg Hmsg].
  unfold pod_tools.create_pod. by rewrite Hmsg.
Qed.

Lemma create_pod_unknown_template_witness :
  pod_tools.create_pod "web" "default" "nginx" None (boot accepting)
  = (Ok "Invalid template. Must be one of: NGINX, REDIS, POSTGRES, MYSQL, CUSTOM",
     boot accepting).
Proof. apply create_pod_unknown_template. by intros []. Defined.

(** X18.  Every pod template, and every job template but [CUSTOM], is
    complete as it stands: without overrides the resource is built, and
    the create request that carries it is sent. *)
Theorem templates_usable_without_overrides (t : pod_templates.ContainerTemplate)
    (j : container_templates.ContainerTemplate) name namespace completions parallelism
    backoff_limit s :
  j ≠ container_templates.CUSTOM ->
  (exists pod,
     pod_tools.build_pod name namespace (pod_templates.pod_templates t) = Ok pod
     /\ calls (trace (pod_tools.create_pod name namespace (pod_templates.member_value t)
                        None s).2)
        = calls (trace s) ++ [create_namespaced_pod namespace pod])
  /\ (exists job,
        job_tools.build_job name namespace completions parallelism backoff_limit
          (container_templates.container_templates j) = Ok job
        /\ calls (trace (job_tools.create_job name namespace
                           (container_templates.member_value j)
                           completions parallelism backoff_limit None s).2)
           = calls (trace s) ++ [create_namespaced_job namespace job]).
Proof.
  intros Hj. split.
  - destruct (buildable_build_pod name namespace (pod_templates.pod_templates t))
      as [pod Hpod]; [by destruct t|].
    exists pod. split; [done|].
    by apply (create_pod_sends _ _ _ _ _ t), Hpod; apply pod_lookup_member_value.
  - destruct (buildable_build_job name namespace completions parallelism backoff_limit
                (container_templates.container_templates j)) as [job Hjob]; [by destruct j|].
    exists job. split; [done|].
    by apply (create_job_sends _ _ _ _ _ _ _ _ j), Hjob; apply job_lookup_member_value.
Qed.

Lemma templates_usable_without_overrides_witness :
  (exists pod,
     pod_tools.build_pod "db" "default" (pod_templates.pod_templates pod_templates.POSTGRES)
     = Ok pod
     /\ calls (trace (pod_tools.create_pod "db" "default" "POSTGRES" None (boot accepting)).2)
        = [] ++ [create_namespaced_pod "default" pod])
  /\ (exists job,
        job_tools.build_job "db" "default" 1 1 6
          (container_templates.container_templates container_templates.NODEJS) = Ok job
        /\ calls (trace (job_tools.create_job "db" "default" "nodejs" 1 1 6 None
                           (boot accepting)).2)
           = [] ++ [create_namespaced_job "default" job]).
Proof.
  apply (templates_usable_without_overrides pod_templates.POSTGRES container_templates.NODEJS
           "db" "default" 1 1 6 (boot accepting)).
  discriminate.
Defined.

(** X19.  [create_pod] records the pod exactly when the cluster accepted
    it: after an accepted create the registry holds the entry under
    ["namespace/name"], after a rejected or failed one it is what it
    was. *)
Theorem create_pod_records_accepted name namespace template custom_config s t pod :
  pod_templates.lookup_member template = Ok t ->
  pod_tools.build_pod name namespace
    (merge_config (pod_templates.pod_templates t) custom_config) = Ok pod ->
  tracked (pod_tools.create_pod name namespace template custom_config s).2
  = match oracle s (length (trace s)) (create_namespaced_pod namespace pod) with
    | Returned _ =>
        dict_set (namespace +:+ "/" +:+ name)
          {| kind := "Pod"; name := name; namespace := namespace |} (tracked s)
    | Rejected _ _ | Failed _ => tracked s
    end.
Proof.
  intros Ht Hpod. unfold pod_tools.create_pod. rewrite Ht. cbn zeta.
  unfold lift at 1. unfold bind at 1. rewrite Hpod.
  unfold try_except, bind, api, request, k8s_manager.track_resource, lift. cbn beta zeta.
  destruct (oracle s _ _) as [response|status text|text]; [|done|done].
  destruct (pod_tools.format_pod_info response) as [info|[]]; reflexivity.
Qed.

Lemma create_pod_records_accepted_witness :
  tracked (pod_tools.create_pod "web" "default" "NGINX" None (boot accepting)).2
  = [("default/web", {| kind := "Pod"; name := "web"; namespace := "default" |})].
Proof.
  eapply (create_pod_records_accepted "web" "default" "NGINX" None (boot accepting)
            pod_templates.NGINX); reflexivity.
Defined.

(** An environment entry without a name is such a configuration. *)
Example create_pod_build_failure :
  pod_tools.create_pod "web" "default" "NGINX"
    (Some (dict [("env", PList [PDict (dict [("value", PStr "1")])])])) (boot accepting)
  = (Raise (KeyError "name"), boot accepting).
Proof.
  by apply (create_pod_build_failure_is_local "web" "default" "NGINX" _ (boot accepting)
              pod_templates.NGINX).
Qed.

(** So is a port entry whose ["containerPort"] is [None]: the model class
    refuses it, outside any handler. *)
Example create_pod_port_none :
  pod_tools.create_pod "web" "default" "NGINX"
    (Some (dict [("ports", PList [PDict (dict [("containerPort", PNone)])])]))
    (boot accepting)
  = (Raise (ValueError "Invalid value for `container_port`, must not be `None`"),
     boot accepting).
Proof.
  by apply (create_pod_build_failure_is_local "web" "default" "NGINX" _ (boot accepting)
              pod_templates.NGINX).
Qed.

(** X20.  [create_job] and [create_cronjob] never record anything: the
    registry is the same after every run.  Their outcome follows the
    answer to the create request: an accepted create ends in the
    [TypeError] of [await], after the resource has been created; an error
    status is rendered as a text; any other failure passes through. *)
Theorem create_job_never_records name namespace schedule template completions parallelism
    backoff_limit custom_config s :
  let job_run :=
    job_tools.create_job name namespace template completions parallelism backoff_limit
      custom_config s in
  let cronjob_run :=
    cronjob_tools.create_cronjob name namespace schedule template completions parallelism
      backoff_limit custom_config s in
  let answer_to (c : call) := oracle s (length (trace s)) c in
  tracked job_run.2 = tracked s
  /\ tracked cronjob_run.2 = tracked s
  /\ match container_templates.lookup_member template with
     | Ok t =>
         let container_config :=
           merge_config (container_templates.container_templates t) custom_config in
         match job_tools.build_job name namespace completions parallelism backoff_limit
                 container_config with
         | Ok job =>
             job_run.1 = awaited_outcome "Error creating job: "
                           (answer_to (create_namespaced_job namespace job))
         | Raise e => job_run.1 = Raise e
         end
         /\ match cronjob_tools.build_cronjob name namespace schedule completions
                    parallelism backoff_limit container_config with
            | Ok cronjob =>
                cronjob_run.1 = awaited_outcome "Error creating cronjob: "
                                  (answer_to (create_namespaced_cron_job namespace cronjob))
            | Raise e => cronjob_run.1 = Raise e
            end
     | Raise _ =>
         job_run.1 = Ok "Invalid template. Must be one of: NGINX, NODEJS, PYTHON, CUSTOM"
         /\ cronjob_run.1
            = Ok "Invalid template. Must be one of: NGINX, NODEJS, PYTHON, CUSTOM"
     end.
Proof.
  intros job_run cronjob_run answer_to. subst job_run cronjob_run answer_to.
  destruct (container_templates.lookup_member template) as [t|e] eqn:Ht.
  - cbn zeta.
    destruct (job_tools.build_job _ _ _ _ _ _) as [job|e] eqn:Hjob;
      destruct (cronjob_tools.build_cronjob _ _ _ _ _ _ _) as [cronjob|e'] eqn:Hcronjob;
      rewrite ?(create_job_outcome _ _ _ _ _ _ _ _ _ _ Ht Hjob),
        ?(create_cronjob_outcome _ _ _ _ _ _ _ _ _ _ _ Ht Hcronjob),
        ?(create_job_build_failure_is_local _ _ _ _ _ _ _ _ _ _ Ht Hjob),
        ?(create_cronjob_build_failure_is_local _ _ _ _ _ _ _ _ _ _ _ Ht Hcronjob);
      done.
  - destruct (job_lookup_member_raises _ _ Ht) as [msg ->].
    unfold job_tools.create_job, cronjob_tools.create_cronjob. by rewrite Ht.
Qed.

(** A job the cluster accepts: it has been created, and the caller gets
    the exception. *)
Example create_job_accepted_raises :
  let run := job_tools.create_job "load" "default" "python" 1 1 6 None (boot accepting) in
  run.1 = Raise (TypeError "object V1Job can't be used in 'await' expression")
  /\ length (calls (trace run.2)) = 1
  /\ tracked run.2 = [].
Proof. vm_compute. split_and!; reflexivity. Qed.

Lemma job_container_needs_image name (config : gmap string pyval) :
  config !! "image" = None -> exists e, job_container name config = Raise e.
Proof.
  intros H. unfold job_container, subscript, py_getitem. rewrite H.
  destruct (container_ports_of config); [|by eexists].
  destruct (env_vars_of config); [|by eexists].
  destruct (job_resources_of config); by eexists.
Qed.

(** X21.  The job template [CUSTOM] carries no image.  Used with overrides
    that supply none, or with no overrides, it makes [create_job] and
    [create_cronjob] raise before anything is sent or recorded. *)
Theorem create_job_custom_needs_image name namespace schedule completions parallelism
    backoff_limit custom_config s :
  default ∅ custom_config !! "image" = None ->
  (exists e,
     job_tools.create_job name namespace "custom" completions parallelism backoff_limit
       custom_config s = (Raise e, s))
  /\ (exists e,
        cronjob_tools.create_cronjob name namespace schedule "custom" completions
          parallelism backoff_limit custom_config s = (Raise e, s)).
Proof.
  intros Himage.
  assert (merge_config (container_templates.container_templates container_templates.CUSTOM)
            custom_config !! "image" = None) as Hmerged.
  { destruct custom_config as [custom|]; [|done].
    cbn in Himage. unfold merge_config. destruct (truthy (PDict custom)); [|done].
    rewrite lookup_union, Himage. done. }
  destruct (job_container_needs_image name _ Hmerged) as [e He].
  split; exists e.
  - apply (create_job_build_failure_is_local _ _ _ _ _ _ _ _ container_templates.CUSTOM);
      [done|]. unfold job_tools.build_job. by rewrite He.
  - apply (create_cronjob_build_failure_is_local _ _ _ _ _ _ _ _ _ container_templates.CUSTOM);
      [done|]. unfold cronjob_tools.build_cronjob. by rewrite He.
Qed.

Lemma create_job_custom_needs_image_witness :
  (exists e,
     job_tools.create_job "task" "default" "custom" 1 1 6
       (Some (dict [("command", PList [PStr "true"])])) (boot accepting)
     = (Raise e, boot accepting))
  /\ (exists e,
        cronjob_tools.create_cronjob "task" "default" "0 * * * *" "custom" 1 1 6
          (Some (dict [("command", PList [PStr "true"])])) (boot accepting)
        = (Raise e, boot accepting)).
Proof. by apply create_job_custom_needs_image. Defined.

Lemma merge_config_insert (template custom : gmap string pyval) key v :
  merge_config template (Some (<[key := v]> custom))
  = <[key := v]> (merge_config template (Some custom)).
Proof.
  unfold merge_config.
  rewrite (nonempty_truthy (<[key := v]> custom)); [|apply insert_non_empty].
  destruct (truthy (PDict custom)) eqn:E.
  - by rewrite insert_union_l.
  - apply falsy_dict_empty in E as ->. by rewrite <- insert_union_l, (left_id ∅ (∪)).
Qed.

Lemma job_container_ignores_restart_policy name (config : gmap string pyval) v :
  job_container name (<["restartPolicy" := v]> config) = job_container name config.
Proof.
  unfold job_container, container_ports_of, env_vars_of, job_resources_of, subscript,
    py_getitem.
  by rewrite !lookup_insert_ne.
Qed.

(** X22.  A [restartPolicy] among the overrides has no effect on a job or
    a cron job: the request, the result and the registry are those of the
    same call without it (the pod template of both is built with
    ["OnFailure"]). *)
Theorem create_job_ignores_restart_policy name namespace schedule template completions
    parallelism backoff_limit (custom : gmap string pyval) v s :
  job_tools.create_job name namespace template completions parallelism backoff_limit
    (Some (<["restartPolicy" := v]> custom)) s
  = job_tools.create_job name namespace template completions parallelism backoff_limit
      (Some custom) s
  /\ cronjob_tools.create_cronjob name namespace schedule template completions parallelism
       backoff_limit (Some (<["restartPolicy" := v]> custom)) s
     = cronjob_tools.create_cronjob name namespace schedule template completions parallelism
         backoff_limit (Some custom) s.
Proof.
  unfold job_tools.create_job, cronjob_tools.create_cronjob.
  destruct (container_templates.lookup_member template) as [t|e]; [|done].
  cbn zeta. unfold job_tools.build_job, cronjob_tools.build_cronjob.
  by rewrite merge_config_insert, job_container_ignores_restart_policy.
Qed.

(** Whereas a pod takes its restart policy from the overrides. *)
Example create_pod_honours_restart_policy :
  (fun pod => restart_policy (pod_spec pod))
    <$> match pod_tools.build_pod "once" "default"
                (merge_config (pod_templates.pod_templates pod_templates.NGINX)
                   (Some (dict [("restartPolicy", PStr "Never")]))) with
        | Ok pod => Some pod
        | Raise _ => None
        end
  = Some (PStr "Never").
Proof. vm_compute. reflexivity. Qed.

(** ** Deleting *)

(** X23.  Every delete tool sends exactly one delete request and leaves
    the registry alone: an entry recorded at creation stays tracked after
    the resource has been deleted through its tool.  [delete_pod] and
    [delete_deployment] answer with a text whenever the server answers.
    [delete_job], [delete_cronjob], [delete_service] and [delete_ingress]
    await the call: they answer with a text only when the delete is
    rejected, and an accepted delete ends in the [TypeError] of [await]. *)
Theorem delete_tools_keep_registry resource namespace force s :
  let answer_to (c : call) := oracle s (length (trace s)) c in
  let after (c : call) :=
    {| oracle := oracle s; trace := trace s ++ [Called c]; tracked := tracked s |} in
  delete_pod resource namespace force s
    = (plain_outcome ("Pod " +:+ resource +:+ " deleted successfully") "Error deleting pod: "
         (answer_to (delete_namespaced_pod resource namespace)),
       after (delete_namespaced_pod resource namespace))
  /\ delete_deployment resource namespace force s
     = (plain_outcome ("Deployment " +:+ resource +:+ " deleted successfully")
          "Error deleting deployment: "
          (answer_to (delete_namespaced_deployment resource namespace)),
        after (delete_namespaced_deployment resource namespace))
  /\ job_tools.delete_job resource namespace force s
     = (awaited_outcome "Error deleting job: "
          (answer_to (delete_namespaced_job resource namespace)),
        after (delete_namespaced_job resource namespace))
  /\ cronjob_tools.delete_cronjob resource namespace force s
     = (awaited_outcome "Error deleting cronjob: "
          (answer_to (delete_namespaced_cron_job resource namespace)),
        after (delete_namespaced_cron_job resource namespace))
  /\ delete_service resource namespace force s
     = (awaited_outcome "Error deleting service: "
          (answer_to (delete_namespaced_service resource namespace)),
        after (delete_namespaced_service resource namespace))
  /\ delete_ingress resource namespace force s
     = (awaited_outcome "Error deleting ingress: "
          (answer_to (delete_namespaced_ingress resource namespace)),
        after (delete_namespaced_ingress resource namespace)).
Proof.
  intros answer_to after. subst answer_to after.
  unfold delete_pod, delete_deployment, job_tools.delete_job, cronjob_tools.delete_cronjob,
    delete_service, delete_ingress.
  unfold try_except, bind, api, request, await, raise, ret, plain_outcome, awaited_outcome.
  cbn beta zeta.
  split_and!; by destruct (oracle s _ _).
Qed.

(** A job that is deleted: the request goes out and is accepted, the tool
    ends in the exception. *)
Example delete_job_accepted_raises :
  job_tools.delete_job "load" "default" false (boot accepting)
  = (Raise (TypeError "object V1Status can't be used in 'await' expression"),
     {| oracle := accepting;
        trace := [Called (delete_namespaced_job "load" "default")];
        tracked := [] |}).
Proof. reflexivity. Qed.

(** ** Rollouts and updates, continued *)

(** An action outside the four valid ones is answered with the list
    of valid actions; no request is sent. *)
Theorem rollout_deployment_invalid_action deployment_name namespace action s :
  existsb (String.eqb action) valid_actions = false ->
  rollout_deployment deployment_name namespace action s
  = (Ok "Invalid action. Must be one of: status, history, restart, undo", s).
Proof. intros H. unfold rollout_deployment. by rewrite H. Qed.

Lemma rollout_deployment_invalid_action_witness :
  rollout_deployment "web" "default" "pause" (boot accepting)
  = (Ok "Invalid action. Must be one of: status, history, restart, undo", boot accepting).
Proof. by apply rollout_deployment_invalid_action. Defined.

(** X24.  The actions ["status"] and ["history"] are one operation: each
    sends a single read of the deployment and neither looks at rollout
    history.  The read is awaited, so a deployment that is found ends the
    call in the [TypeError] of [await]; an error status is rendered as a
    text, and any other failure passes through. *)
Theorem rollout_deployment_history_is_status deployment_name namespace s :
  rollout_deployment deployment_name namespace "history" s
    = rollout_deployment deployment_name namespace "status" s
  /\ rollout_deployment deployment_name namespace "history" s
     = (match oracle s (length (trace s))
                (read_namespaced_deployment deployment_name namespace) with
        | Returned _ =>
            Raise (TypeError "object V1Deployment can't be used in 'await' expression")
        | Rejected _ text => Ok ("Error performing rollout action: " +:+ text)
        | Failed text => Raise (Exception text)
        end,
        {| oracle := oracle s;
           trace := trace s ++ [Called (read_namespaced_deployment deployment_name namespace)];
           tracked := tracked s |}).
Proof.
  split; [reflexivity|].
  unfold rollout_deployment.
  cbn [existsb valid_actions negb String.eqb Ascii.eqb Bool.eqb orb].
  unfold try_except, bind, api, request, await, raise, ret. cbn beta zeta.
  by destruct (oracle s _ _).
Qed.

(** X25.  An environment entry that lacks ["name"] or ["value"] stops
    [update_deployment] while the patch is being built: the exception
    escapes and no patch is sent, not even for the options that were
    well formed. *)
Theorem update_deployment_malformed_env deployment_name namespace image replicas item env
    s e :
  comprehension env_item (item :: env) = Raise e ->
  update_deployment deployment_name namespace image replicas (Some (item :: env)) s
  = (Raise e, s).
Proof.
  intros H. pose proof (env_item_raises _ _ H) as Hnot.
  unfold update_deployment, try_except. unfold lift at 1. unfold bind at 1.
  rewrite build_patch_last_option. unfold patch_of_last_option. rewrite H. cbn.
  by destruct e.
Qed.

Lemma update_deployment_malformed_env_witness :
  update_deployment "web" "default" (Some "nginx:1.27") (Some 3%Z)
    (Some [PDict (dict [("name", PStr "MODE")])]) (boot accepting)
  = (Raise (KeyError "value"), boot accepting).
Proof. by apply update_deployment_malformed_env. Defined.

(** X26.  A call that supplies nothing, or only an empty image or an empty
    environment list, still goes to the cluster: one patch request is
    sent, with an empty body. *)
Theorem update_deployment_nothing_supplied deployment_name namespace (empty_image empty_env : bool)
    s :
  let image := if empty_image then Some "" else None in
  let env := if empty_env then Some [] else None in
  calls (trace (update_deployment deployment_name namespace image None env s).2)
  = calls (trace s) ++ [patch_namespaced_deployment deployment_name namespace (PDict ∅)].
Proof.
  intros image env. apply update_deployment_sends.
  by destruct empty_image, empty_env.
Qed.

(** ** Process wrappers *)

Lemma argv_of_strings (l : list string) : argv_of (map PStr l) = Ok l.
Proof.
  unfold argv_of. induction l as [|x l IH]; [done|].
  cbn [map comprehension]. cbn -[comprehension]. by rewrite IH.
Qed.

Lemma communicate_rendered run (argv : list string) prefix :
  rtry (communicate run (map PStr argv)) (fun e => Ok (prefix +:+ exn_str e))
  = Ok (rendered prefix (run argv)).
Proof.
  unfold communicate, rendered. rewrite argv_of_strings. cbn [rbind].
  destruct (run argv) as [process|e]; [|done]. cbn [rbind].
  destruct (returncode process =? 0)%Z; cbn [negb].
  - by destruct (stdout process).
  - by destruct (stderr process).
Qed.

(** X27.  [run_kubectl_command] never raises.  Called with a list of
    strings it runs exactly [kubectl], the command and those strings, and
    answers with the output on exit status 0, with the error stream after
    ["Error: "] on any other status, and with a text naming the exception
    when the process could not be run or its output not be decoded. *)
Theorem run_kubectl_command_renders run command (arguments : list string) (args : pyval) :
  run_kubectl_command run command (PList (map PStr arguments))
    = Ok (rendered "Error executing kubectl command: "
            (run ("kubectl" :: command :: arguments)))
  /\ exists text, run_kubectl_command run command args = Ok text.
Proof.
  split.
  - unfold run_kubectl_command. destruct arguments as [|a arguments].
    + cbn [truthy map]. apply (communicate_rendered run ["kubectl"; command]).
    + cbn [truthy map py_iter rbind].
      apply (communicate_rendered run ("kubectl" :: command :: a :: arguments)).
  - unfold run_kubectl_command, rtry.
    destruct (let? cmd := _ in communicate run cmd); by eexists.
Qed.

(** X28.  The tools that pass their argument list unpacked hand the
    wrapper three arguments or more, which its two parameters cannot take:
    [get_pod_metrics], [create_namespace], [delete_namespace],
    [create_statefulset] and [delete_statefulset] raise [TypeError] on
    every input and never run a process. *)
Theorem unpacking_tools_raise run name namespace image replicas labels
    (optional_namespace label_selector service_name : option string) force :
  (exists msg, get_pod_metrics run optional_namespace label_selector = Raise (TypeError msg))
  /\ (exists msg, create_namespace run name labels = Raise (TypeError msg))
  /\ (exists msg, delete_namespace run name force = Raise (TypeError msg))
  /\ (exists msg,
        create_statefulset run name namespace image replicas labels service_name
        = Raise (TypeError msg))
  /\ (exists msg, delete_statefulset run name namespace force = Raise (TypeError msg)).
Proof.
  split_and!.
  - unfold get_pod_metrics.
    destruct optional_namespace as [ns|]; [destruct (truthy (PStr ns))|];
      (destruct label_selector as [l|]; [destruct (truthy (PStr l))|]); by eexists.
  - unfold create_namespace. destruct labels as [[|item items]|]; by eexists.
  - unfold delete_namespace. destruct force; by eexists.
  - unfold create_statefulset.
    destruct (truthy (PStr image)), (truthy (PInt replicas)), labels as [[|item items]|];
      (destruct service_name as [svc|]; [destruct (truthy (PStr svc))|]); by eexists.
  - unfold delete_statefulset. destruct force; by eexists.
Qed.

(** X29.  [drain_node] raises [TypeError] as soon as one of its three flags
    is set, which [ignore_daemonsets] is by default.  With no flag set the
    node name lands in the wrapper's list parameter and is taken apart:
    kubectl is run with ["drain"] followed by the characters of the name,
    one argument each. *)
Theorem drain_node_outcomes run node_name (force ignore_daemonsets delete_local_data : bool) :
  if force || ignore_daemonsets || delete_local_data
  then exists msg,
      drain_node run node_name force ignore_daemonsets delete_local_data
      = Raise (TypeError msg)
  else drain_node run node_name force ignore_daemonsets delete_local_data
       = Ok (rendered "Error executing kubectl command: "
               (run ("kubectl" :: "drain"
                       :: map (fun c => String c EmptyString)
                            (String.list_ascii_of_string node_name)))).
Proof.
  destruct force, ignore_daemonsets, delete_local_data; cbn [orb]; try by eexists.
  unfold drain_node. cbn [run_kubectl_command_unpacked].
  unfold run_kubectl_command. destruct node_name as [|c node_name].
  - cbn [truthy String.eqb negb]. apply (communicate_rendered run ["kubectl"; "drain"]).
  - cbn [truthy String.eqb negb py_iter rbind]. rewrite <- map_map.
    apply (communicate_rendered run
             ("kubectl" :: "drain"
                :: map (fun c => String c EmptyString)
                     (String.list_ascii_of_string (String c node_name)))).
Qed.

(** A node drained without flags. *)
Example drain_node_splits_name :
  drain_node (fun argv => Ok {| returncode := 0; stdout := Ok (join " " argv);
                                stderr := Ok "" |})
    "n1" false false false
  = Ok "kubectl drain n 1".
Proof. reflexivity. Qed.

(** By contrast [cordon_node] passes the name inside a list. *)
Example cordon_node_runs_kubectl :
  cordon_node (fun argv => Ok {| returncode := 0; stdout := Ok (join " " argv);
                                 stderr := Ok "" |}) "n1"
  = Ok "kubectl cordon n1".
Proof. reflexivity. Qed.

(** [exec_pod_command] never raises either, and the command the
    caller gives is placed after ["--"], behind the pod, the namespace and
    the container: none of its words is read as an option of kubectl. *)
Theorem exec_pod_command_renders run pod_name namespace command container :
  exec_pod_command run pod_name namespace command container
  = Ok (rendered "Error executing command in pod: "
          (run (["kubectl"; "exec"; pod_name; "-n"; namespace]
                  ++ match container with
                     | Some (String a c) => ["-c"; String a c]
                     | _ => []
                     end
                  ++ "--" :: command))).
Proof.
  unfold exec_pod_command.
  destruct container as [[|a c]|]; cbn [truthy String.eqb negb];
    apply communicate_rendered.
Qed.
